(** * open-meteo-weather-sdk: the request gateway and the response normalizer

    A shallow embedding of [client.go], [errors.go], [weather.go] and the
    options file of the Go package [openmeteo], with the properties of its
    specification stated and settled against the embedding.

    Conventions.
    - A Go [float64] is a [spec_float] of the Standard Library (IEEE 754
      binary64, NaN without payload); Go's [<] and [>] are [SFltb].
    - A Go [int] is a [Z]; a Go [string] is a [string] (one [ascii] per byte).
    - A nullable pointer field ([*float64], [*int], [*string]) is an [option].
    - A Go [(T, error)] result is a [res T].
    - What lives in Go's own libraries and in the outside world (float
      printing, URL parsing, the HTTP round trip, JSON decoding) is collected
      in the record [Env] and in the [httpClient] field of the client; the
      embedded functions are parametric in them. *)

From Stdlib Require Import ZArith QArith Lia Bool Ascii String.
From Stdlib Require Import Floats.SpecFloat.
From stdpp Require Import base option list strings sorting pretty relations.

Set Default Proof Using "Type".
Local Set Warnings "-register-all".
Local Open Scope string_scope.
Local Open Scope Z_scope.

(* ===================================================================== *)
(** * Part I: definitions                                                 *)
(* ===================================================================== *)

(** ** float64 *)

Module Float64.

Definition float64 : Type := spec_float.

(** Precision and maximal exponent of binary64. *)
Definition prec : Z := 53.
Definition emax : Z := 1024.

(** A [float64] held by a Go variable is a well-formed binary64 datum. *)
Definition wf (x : float64) : Prop := valid_binary prec emax x = true.

(** Go's comparison operators on [float64]. *)
Definition lt (x y : float64) : bool := SFltb x y.
Definition gt (x y : float64) : bool := SFltb y x.

(** The zero value of the type, [0.0]. *)
Definition zero : float64 := S754_zero false.

Definition NaN : float64 := S754_nan.

(** [of_int n] is the binary64 datum of the integer constant [n], for
    [|n| < 2^53] (the untyped constants -90, 90, -180, 180 of the source
    are converted this way by the compiler). *)
Definition of_int (n : Z) : float64 :=
  match n with
  | Z0 => S754_zero false
  | Zpos p =>
      S754_finite false (Pos.shiftl p (Z.to_N (prec - Z.pos (digits2_pos p))))
                  (Z.pos (digits2_pos p) - prec)
  | Zneg p =>
      S754_finite true (Pos.shiftl p (Z.to_N (prec - Z.pos (digits2_pos p))))
                  (Z.pos (digits2_pos p) - prec)
  end.

(** [of_decimal d k] is the binary64 datum nearest to [d / 10^k]: what the
    Go compiler and [encoding/json] make of a decimal literal with [k]
    digits after the point (here by one correctly rounded division of two
    integers that binary64 holds exactly). *)
Definition of_decimal (d : Z) (k : nat) : float64 :=
  SFdiv prec emax (of_int d) (of_int (10 ^ Z.of_nat k)).

Global Instance float64_eq_dec : EqDecision float64.
Proof. solve_decision. Defined.

(** The rational number a finite datum stands for: [(-1)^s * m * 2^e]. *)
Definition signed (s : bool) (m : positive) : Z :=
  if s then Z.neg m else Z.pos m.

Definition F2Q (x : float64) : Q :=
  match x with
  | S754_finite s m e =>
      match e with
      | Z0 => inject_Z (signed s m)
      | Zpos p => inject_Z (signed s m * 2 ^ Z.pos p)
      | Zneg p => Qmake (signed s m) (2 ^ p)%positive
      end
  | _ => 0%Q
  end.

(** The same number in units of [2^-1074], the weight of the last bit of
    the smallest binary64 numbers: an integer for every well-formed datum. *)
Definition scaled (x : float64) : Z :=
  match x with
  | S754_finite s m e => signed s m * 2 ^ (e + 1074)
  | _ => 0
  end.

Definition is_finite (x : float64) : bool :=
  match x with
  | S754_zero _ | S754_finite _ _ _ => true
  | _ => false
  end.

(** [in_closed lo hi x]: [x] is a number of the closed interval
    [[lo, hi]] (so neither an infinity nor NaN). *)
Definition in_closed (lo hi : Z) (x : float64) : Prop :=
  is_finite x = true /\ (inject_Z lo <= F2Q x)%Q /\ (F2Q x <= inject_Z hi)%Q.

(** [outside lo hi x]: [x] is a number, or an infinity, strictly below
    [lo] or strictly above [hi]. NaN is neither inside nor outside. *)
Definition outside (lo hi : Z) (x : float64) : Prop :=
  match x with
  | S754_nan => False
  | S754_infinity _ => True
  | _ => (F2Q x < inject_Z lo)%Q \/ (inject_Z hi < F2Q x)%Q
  end.

End Float64.

Export Float64.

(** ** errors.go *)

(** [ErrorType] classifies the category of an SDK error (an [iota]
    enumeration of three values). *)
Inductive ErrorType : Type :=
  | ErrorTypeValidation
  | ErrorTypeNetwork
  | ErrorTypeAPI.

Global Instance ErrorType_eq_dec : EqDecision ErrorType.
Proof. solve_decision. Defined.

(** The values of Go's [error] interface that can reach a caller of the SDK:
    - the two sentinel errors of package [context];
    - [foreign msg inner]: an error made by [net/url], [net/http] or
      [encoding/json], printing as [msg], whose [Unwrap] gives [inner]
      (a [*url.Error] around the context's error, for instance);
    - [ErrorPtr ty msg cause]: a [*Error] of this package with its three
      fields [Type], [Message], [Cause] ([None] is a nil cause). *)
Inductive error : Type :=
  | context_Canceled
  | context_DeadlineExceeded
  | foreign (msg : string) (inner : option error)
  | ErrorPtr (Type_ : ErrorType) (Message : string) (Cause : option error).

(** A Go [(T, error)] pair in which exactly one side is set. *)
Inductive res (A : Type) : Type :=
  | Ok (a : A)
  | Err (e : error).
Arguments Ok {A} a.
Arguments Err {A} e.

Module Errors.

(** [func (e *Error) Error() string], together with the [Error] methods of
    the other error values. *)
Fixpoint Error (e : error) : string :=
  match e with
  | context_Canceled => "context canceled"
  | context_DeadlineExceeded => "context deadline exceeded"
  | foreign msg _ => msg
  | ErrorPtr _ Message Cause =>
      match Cause with
      | Some c => Message +:+ ": " +:+ Error c
      | None => Message
      end
  end.

(** [func (e *Error) Unwrap() error], and the [Unwrap] of the others. *)
Definition Unwrap (e : error) : option error :=
  match e with
  | context_Canceled | context_DeadlineExceeded => None
  | foreign _ inner => inner
  | ErrorPtr _ _ Cause => Cause
  end.

(** [errors.Is(err, target)] for a sentinel [target]: some error of the
    [Unwrap] chain of [err] is [target] itself. *)
Fixpoint Is_Canceled (e : error) : bool :=
  match e with
  | context_Canceled => true
  | context_DeadlineExceeded => false
  | foreign _ inner | ErrorPtr _ _ inner =>
      match inner with Some c => Is_Canceled c | None => false end
  end.

Fixpoint Is_DeadlineExceeded (e : error) : bool :=
  match e with
  | context_Canceled => false
  | context_DeadlineExceeded => true
  | foreign _ inner | ErrorPtr _ _ inner =>
      match inner with Some c => Is_DeadlineExceeded c | None => false end
  end.

(** [errors.As(err, &apiErr)] with [apiErr] of type [*Error]: the first
    [*Error] of the [Unwrap] chain, given by its [Type] and [Message]. *)
Fixpoint As_Error (e : error) : option (ErrorType * string) :=
  match e with
  | context_Canceled | context_DeadlineExceeded => None
  | foreign _ inner =>
      match inner with Some c => As_Error c | None => None end
  | ErrorPtr ty msg _ => Some (ty, msg)
  end.

End Errors.


(** ** package time, as far as the normalizer uses it *)

Module Time.

(** A [time.Time] in UTC with minute resolution: the civil fields of the
    instant. Seconds and nanoseconds are zero in every value the
    normalizer can make, the zero [Time] included. *)
Record Time : Type := mkTime {
  Year : Z; Month : Z; Day : Z; Hour : Z; Minute : Z
}.

Global Instance Time_eq_dec : EqDecision Time.
Proof. solve_decision. Defined.

(** The zero value [time.Time{}]: January 1, year 1, 00:00 UTC. *)
Definition zero : Time := mkTime 1 1 1 0 0.

Definition isDigit (c : ascii) : bool :=
  (48 <=? Z.of_nat (nat_of_ascii c)) && (Z.of_nat (nat_of_ascii c) <=? 57).

Definition digit (c : ascii) : Z := Z.of_nat (nat_of_ascii c) - 48.

(** [getnum(s, fixed)]: one or two leading digits; exactly two when
    [fixed]. *)
Definition getnum (s : string) (fixed : bool) : option (Z * string) :=
  match s with
  | String c0 s1 =>
      if isDigit c0 then
        match s1 with
        | String c1 s2 =>
            if isDigit c1 then Some (digit c0 * 10 + digit c1, s2)
            else if fixed then None else Some (digit c0, s1)
        | EmptyString => if fixed then None else Some (digit c0, s1)
        end
      else None
  | EmptyString => None
  end.

(** The chunk [2006]: four characters, all digits. *)
Definition getyear (s : string) : option (Z * string) :=
  match s with
  | String a (String b (String c (String d rest))) =>
      if isDigit a && isDigit b && isDigit c && isDigit d
      then Some (digit a * 1000 + digit b * 100 + digit c * 10 + digit d, rest)
      else None
  | _ => None
  end.

(** [skip(value, prefix)] for a one-character literal of the layout. *)
Definition skip (c : ascii) (s : string) : option string :=
  match s with
  | String c' rest => if decide (c' = c) then Some rest else None
  | EmptyString => None
  end.

Definition isLeap (year : Z) : bool :=
  (year mod 4 =? 0) && (negb (year mod 100 =? 0) || (year mod 400 =? 0)).

Definition daysIn (month year : Z) : Z :=
  if month =? 2 then (if isLeap year then 29 else 28)
  else if (month =? 4) || (month =? 6) || (month =? 9) || (month =? 11)
       then 30 else 31.

(** [time.Parse("2006-01-02T15:04", value)]: the chunks of the layout are
    consumed from left to right, each with the range check [Parse] does
    for it; then no text may remain, and the day must exist in its
    month. Without a zone in the layout the result is in UTC. *)
Definition Parse (value : string) : option Time :=
  '(year, v) ← getyear value;
  v ← skip "-" v;
  '(month, v) ← getnum v true;
  guard (1 <= month <= 12);;
  v ← skip "-" v;
  '(day, v) ← getnum v true;
  v ← skip "T" v;
  '(hour, v) ← getnum v false;
  guard (0 <= hour < 24);;
  v ← skip ":" v;
  '(min, v) ← getnum v true;
  guard (0 <= min < 60);;
  guard (v = "");;
  guard (1 <= day <= daysIn month year);;
  Some (mkTime year month day hour min).

(** [t.UTC()]: the same instant with the location set to UTC; on the
    civil fields of a value that is in UTC already, the identity. *)
Definition UTC (t : Time) : Time := t.

End Time.

(** ** weather.go *)

(** The wire shape. [currentWeatherResponse] has one nullable field per
    requested variable plus [time]; [weatherResponse] carries the echoed
    coordinates and the [current] block. *)
Module wire.

Record currentWeatherResponse : Type := mkCurrent {
  Time                : option string;
  Temperature         : option float64;
  Windspeed           : option float64;
  Winddirection       : option float64;
  Weathercode         : option Z;
  IsDay               : option Z;
  RelativeHumidity    : option float64;
  ApparentTemperature : option float64;
  Precipitation       : option float64;
  Rain                : option float64;
  Showers             : option float64;
  Snowfall            : option float64;
  CloudCover          : option float64;
  PressureMSL         : option float64;
  SurfacePressure     : option float64;
  WindGusts           : option float64
}.

Record weatherResponse : Type := mkResponse {
  Latitude       : float64;
  Longitude      : float64;
  CurrentWeather : currentWeatherResponse
}.

(** The zero value of [currentWeatherResponse]: every pointer nil. *)
Definition allNull : currentWeatherResponse :=
  mkCurrent None None None None None None None None
            None None None None None None None None.

End wire.

(** The domain value. No field is nullable. ([client.go] spells the
    sea-level pressure field [SeaLevelPressure] and its wire source
    [PressureMsl]; [weather.go] declares both as [PressureMSL]. They are the
    same two fields, named here as [weather.go] declares them.) *)
Record CurrentWeather : Type := mkCurrentWeather {
  Latitude            : float64;
  Longitude           : float64;
  Time                : Time.Time;
  Temperature         : float64;
  RelativeHumidity    : float64;
  ApparentTemperature : float64;
  IsDay               : bool;
  Precipitation       : float64;
  Rain                : float64;
  Showers             : float64;
  Snowfall            : float64;
  WeatherCode         : Z;
  CloudCover          : float64;
  PressureMSL         : float64;
  SurfacePressure     : float64;
  WindSpeed           : float64;
  WindDirection       : float64;
  WindGusts           : float64
}.

(** The zero value [CurrentWeather{}]. *)
Definition zeroCurrentWeather : CurrentWeather :=
  mkCurrentWeather zero zero Time.zero zero zero zero false zero zero zero
                   zero 0 zero zero zero zero zero zero.

(** [if p != nil { field = *p }] on a field that still has its zero value
    [z]. *)
Definition deref {A : Type} (p : option A) (z : A) : A :=
  match p with
  | Some v => v
  | None => z
  end.

(** [func (c *Client) convertToCurrentWeather(apiResp weatherResponse)]. The receiver is not used. The function starts from a
    struct in which only the coordinates are set and assigns a field only
    under its nil test, so every other field keeps its zero value unless the
    test passes. *)
Definition convertToCurrentWeather (apiResp : wire.weatherResponse)
  : CurrentWeather :=
  let cur := wire.CurrentWeather apiResp in
  {| Latitude  := wire.Latitude apiResp;
     Longitude := wire.Longitude apiResp;
     Time :=
       match wire.Time cur with
       | Some value =>
           match Time.Parse value with
           | Some t => Time.UTC t
           | None => Time.zero
           end
       | None => Time.zero
       end;
     Temperature         := deref (wire.Temperature cur) zero;
     RelativeHumidity    := deref (wire.RelativeHumidity cur) zero;
     ApparentTemperature := deref (wire.ApparentTemperature cur) zero;
     IsDay :=
       match wire.IsDay cur with
       | Some v => v =? 1
       | None => false
       end;
     Precipitation   := deref (wire.Precipitation cur) zero;
     Rain            := deref (wire.Rain cur) zero;
     Showers         := deref (wire.Showers cur) zero;
     Snowfall        := deref (wire.Snowfall cur) zero;
     WeatherCode     := deref (wire.Weathercode cur) 0;
     CloudCover      := deref (wire.CloudCover cur) zero;
     PressureMSL     := deref (wire.PressureMSL cur) zero;
     SurfacePressure := deref (wire.SurfacePressure cur) zero;
     WindSpeed       := deref (wire.Windspeed cur) zero;
     WindDirection   := deref (wire.Winddirection cur) zero;
     WindGusts       := deref (wire.WindGusts cur) zero |}.

(** ** package net/url, as far as [buildRequestURL] uses it *)

Module URL.

(** [url.Values], a [map[string][]string]: at most one entry per key; the
    order of the entries carries no meaning ([Encode] sorts). *)
Abbreviation Values := (list (string * list string)).

(** [v.Get(key)]: the first value of the key, or the empty string. *)
Definition Get (v : Values) (key : string) : string :=
  match list_find (fun kv => kv.1 = key) v with
  | Some (_, (_, value :: _)) => value
  | _ => ""
  end.

(** [v.Has(key)]. *)
Definition Has (v : Values) (key : string) : bool :=
  bool_decide (key ∈ v.*1).

(** [v.Set(key, value)]: replaces whatever the key had. *)
Definition Set_ (key value : string) (v : Values) : Values :=
  (key, [value]) :: filter (fun kv => kv.1 <> key) v.

Definition between (lo hi : Z) (c : ascii) : bool :=
  (lo <=? Z.of_nat (nat_of_ascii c)) && (Z.of_nat (nat_of_ascii c) <=? hi).

(** [shouldEscape(c, encodeQueryComponent)]: only letters, digits and the
    four marks [-_.~] are left alone. *)
Definition shouldEscape (c : ascii) : bool :=
  if between 97 122 c || between 65 90 c || between 48 57 c then false
  else if bool_decide (c ∈ ["-"; "_"; "."; "~"]%char) then false
  else true.

Definition upperhex (n : N) : ascii :=
  match n with
  | 0 => "0" | 1 => "1" | 2 => "2" | 3 => "3" | 4 => "4" | 5 => "5"
  | 6 => "6" | 7 => "7" | 8 => "8" | 9 => "9" | 10 => "A" | 11 => "B"
  | 12 => "C" | 13 => "D" | 14 => "E" | _ => "F"
  end%N%char.

(** [url.QueryEscape(s)]. *)
Fixpoint QueryEscape (s : string) : string :=
  match s with
  | EmptyString => EmptyString
  | String c rest =>
      if shouldEscape c then
        if bool_decide (c = " "%char) then String "+" (QueryEscape rest)
        else String "%"
               (String (upperhex (N.shiftr (N_of_ascii c) 4))
                  (String (upperhex (N.land (N_of_ascii c) 15))
                     (QueryEscape rest)))
      else String c (QueryEscape rest)
  end.

Definition key_le (a b : string * list string) : Prop :=
  String.leb a.1 b.1 = true.

Global Instance key_le_dec : RelDecision key_le.
Proof. intros a b. unfold key_le. apply _. Defined.

Fixpoint join (sep : string) (l : list string) : string :=
  match l with
  | [] => ""
  | [x] => x
  | x :: rest => x +:+ sep +:+ join sep rest
  end.

(** [v.Encode()]: [key=value] pairs, both sides escaped, keys in
    increasing byte order, joined by [&]. *)
Definition Encode (v : Values) : string :=
  join "&"
    (flat_map
       (fun kv => map (fun value => QueryEscape kv.1 +:+ "=" +:+ QueryEscape value) kv.2)
       (merge_sort key_le v)).

(** A parsed [*url.URL], by what [String] prints of it: [Head] is the
    text before the query (scheme, authority, escaped path), [Fragment]
    the escaped fragment. *)
Record URL : Type := mkURL {
  Head       : string;
  ForceQuery : bool;
  RawQuery   : string;
  Fragment   : string
}.

Definition set_RawQuery (q : string) (u : URL) : URL :=
  {| Head := Head u; ForceQuery := ForceQuery u; RawQuery := q;
     Fragment := Fragment u |}.

(** [u.String()]. *)
Definition String_ (u : URL) : string :=
  Head u
  +:+ (if ForceQuery u || negb (bool_decide (RawQuery u = ""))
       then "?" +:+ RawQuery u else "")
  +:+ (if bool_decide (Fragment u = "") then "" else "#" +:+ Fragment u).

End URL.

(** ** package context and package net/http *)

(** The caller's context, by its state when the code looks at it. *)
Inductive Context : Type :=
  | ctx_live
  | ctx_canceled
  | ctx_expired.

Module Ctx.

(** [ctx.Err()]: nil while the context is live. *)
Definition Err (ctx : Context) : option error :=
  match ctx with
  | ctx_live => None
  | ctx_canceled => Some context_Canceled
  | ctx_expired => Some context_DeadlineExceeded
  end.

(** Whether a receive from [ctx.Done()] can proceed: the channel is
    closed once the context is cancelled or past its deadline. *)
Definition Done_ready (ctx : Context) : bool :=
  match ctx with
  | ctx_live => false
  | _ => true
  end.

End Ctx.

Module HTTP.

Record Request : Type := mkRequest {
  Method : string;
  Url    : string;
  Ctx    : Context
}.

(** A response body as a reader: [content] is what can be read before the
    stream ends, [failure] the read error that ends it instead of a clean
    end of file, if any. *)
Record Body : Type := mkBody {
  content : string;
  failure : option error
}.

Record Response : Type := mkResp {
  StatusCode : Z;
  Body_      : Body
}.

(** [io.ReadAll(body)]: the bytes read, and the error that stopped the
    reading. *)
Definition ReadAll (b : Body) : string * option error :=
  (content b, failure b).

(** An [*http.Client]: its timeout (in nanoseconds) and what a round trip
    through it answers; [Do] is the latter. *)
Record Client : Type := mkClient {
  Timeout : Z;
  Do      : Request -> res Response
}.

Definition StatusOK : Z := 200.
Definition MethodGet : string := "GET".

End HTTP.

(** What the Go libraries under the SDK compute. *)
Record Env : Type := mkEnv {
  (** [strconv.FormatFloat(x, 'f', -1, 64)] *)
  FormatFloat : float64 -> string;
  (** [fmt.Sprintf("%.2f", x)] *)
  Sprintf_2f : float64 -> string;
  (** [url.Parse] *)
  url_Parse : string -> res URL.URL;
  (** [u.Query()] on a URL whose [RawQuery] is the argument *)
  url_ParseQuery : string -> URL.Values;
  (** [http.NewRequestWithContext(ctx, method, url, nil)] *)
  http_NewRequestWithContext : Context -> string -> string -> res HTTP.Request;
  (** [json.NewDecoder(body).Decode(&apiResp)] on a zero [apiResp] *)
  json_Decode : HTTP.Body -> res wire.weatherResponse;
  (** the transport of the default [http.Client] *)
  http_DefaultTransport : HTTP.Request -> res HTTP.Response
}.

(** ** client.go and the options *)

Definition defaultBaseURL : string := "https://api.open-meteo.com/v1".
(** [10 * time.Second], in nanoseconds. *)
Definition defaultTimeout : Z := 10 * 1000000000.
Definition maxConcurrent : nat := 10.

(** A buffered [chan struct{}]: the elements carry no data, so the channel
    is its capacity and the number of elements it holds. *)
Record chan : Type := mkChan {
  chan_cap : nat;
  chan_len : nat
}.

Module Chan.

(** [make(chan struct{}, n)] *)
Definition make (n : nat) : chan := mkChan n 0.

(** [ch <- struct{}{}]: proceeds when the buffer has room, blocks
    ([None]) otherwise. *)
Definition send (ch : chan) : option chan :=
  if decide (chan_len ch < chan_cap ch)%nat
  then Some (mkChan (chan_cap ch) (S (chan_len ch)))
  else None.

(** [<-ch]: proceeds when the buffer holds an element, blocks ([None])
    otherwise. *)
Definition recv (ch : chan) : option chan :=
  match chan_len ch with
  | S n => Some (mkChan (chan_cap ch) n)
  | O => None
  end.

End Chan.

Record Client : Type := mkClient {
  httpClient : HTTP.Client;
  baseURL    : string;
  semaphore  : chan
}.

Definition with_semaphore (ch : chan) (c : Client) : Client :=
  {| httpClient := httpClient c; baseURL := baseURL c; semaphore := ch |}.

(** [type Option func(c *Client)]: the three options the package exports. *)
Inductive Option_ : Type :=
  | WithTimeout (timeout : Z)
  | WithHTTPClient (h : HTTP.Client)
  | WithBaseURL (url : string).

Definition apply_option (opt : Option_) (c : Client) : Client :=
  match opt with
  | WithTimeout timeout =>
      {| httpClient := HTTP.mkClient timeout (HTTP.Do (httpClient c));
         baseURL := baseURL c; semaphore := semaphore c |}
  | WithHTTPClient h =>
      {| httpClient := h; baseURL := baseURL c; semaphore := semaphore c |}
  | WithBaseURL url =>
      {| httpClient := httpClient c; baseURL := url; semaphore := semaphore c |}
  end.

(** [func NewClient(opts ...Option) *Client] *)
Definition NewClient (env : Env) (opts : list Option_) : Client :=
  fold_left (fun c opt => apply_option opt c) opts
    {| httpClient := HTTP.mkClient defaultTimeout (http_DefaultTransport env);
       baseURL := defaultBaseURL;
       semaphore := Chan.make maxConcurrent |}.

(** What a call of [GetCurrentWeather] hands back: the Go pair
    [*CurrentWeather, error]. *)
Record Return : Type := mkReturn {
  weather : option CurrentWeather;
  err     : option error
}.

Definition fail (e : error) : Return := mkReturn None (Some e).

Section Gateway.

Variable env : Env.

(** Lines 183-188 of [buildRequestURL]: the six [q.Set] calls, in order. *)
Definition setParameters (latitude longitude : float64) (q : URL.Values)
  : URL.Values :=
  let q := URL.Set_ "latitude" (FormatFloat env latitude) q in
  let q := URL.Set_ "longitude" (FormatFloat env longitude) q in
  let q := URL.Set_ "current_weather" "true" q in
  let q := URL.Set_ "temperature_unit" "celsius" q in
  let q := URL.Set_ "windspeed_unit" "ms" q in
  let q := URL.Set_ "precipitation_unit" "mm" q in
  q.

(** [func (c *Client) buildRequestURL(latitude, longitude float64)
    (string, error)] *)
Definition buildRequestURL (c : Client) (latitude longitude : float64)
  : res string :=
  match url_Parse env (baseURL c +:+ "/forecast") with
  | Err e => Err e
  | Ok u =>
      let q := url_ParseQuery env (URL.RawQuery u) in
      let q := setParameters latitude longitude q in
      Ok (URL.String_ (URL.set_RawQuery (URL.Encode q) u))
  end.

(** Lines 94-105 of [GetCurrentWeather]: the two range tests. [None]
    means both passed. *)
Definition checkCoordinates (latitude longitude : float64) : option error :=
  if lt latitude (of_int (-90)) || gt latitude (of_int 90) then
    Some (ErrorPtr ErrorTypeValidation
            ("invalid latitude: " +:+ Sprintf_2f env latitude
             +:+ " (must be between -90 and 90)") None)
  else if lt longitude (of_int (-180)) || gt longitude (of_int 180) then
    Some (ErrorPtr ErrorTypeValidation
            ("invalid longitude: " +:+ Sprintf_2f env longitude
             +:+ " (must be between -180 and 180)") None)
  else None.

(** The three arms of the [select] of lines 108-118. *)
Inductive arm : Type :=
  | arm_send
  | arm_done
  | arm_default.

(** Go's [select]: with no communication ready the [default] arm runs;
    with one ready, that one; with both ready, one of the two, chosen by
    the runtime (the [coin]). *)
Definition select (coin : bool) (sem : chan) (ctx : Context) : arm :=
  match Chan.send sem, Ctx.Done_ready ctx with
  | Some _, true => if coin then arm_send else arm_done
  | Some _, false => arm_send
  | None, true => arm_done
  | None, false => arm_default
  end.

Definition limitExceeded : error :=
  ErrorPtr ErrorTypeValidation
    ("concurrent request limit exceeded (" +:+ pretty (Z.of_nat maxConcurrent)
     +:+ ")") None.

(** Lines 120-172 of [GetCurrentWeather], which run while the slot is
    held: the result, and the requests handed to [c.httpClient.Do]. *)
Definition fetch (c : Client) (ctx : Context) (latitude longitude : float64)
  : Return * list HTTP.Request :=
  match buildRequestURL c latitude longitude with
  | Err e =>
      (fail (ErrorPtr ErrorTypeValidation "failed to build request URL" (Some e)), [])
  | Ok reqURL =>
      match http_NewRequestWithContext env ctx HTTP.MethodGet reqURL with
      | Err e =>
          (fail (ErrorPtr ErrorTypeNetwork "failed to create HTTP request" (Some e)), [])
      | Ok req =>
          match HTTP.Do (httpClient c) req with
          | Err e =>
              (fail (ErrorPtr ErrorTypeNetwork "failed to execute HTTP request" (Some e)),
               [req])
          | Ok resp =>
              if negb (HTTP.StatusCode resp =? HTTP.StatusOK) then
                let body := (HTTP.ReadAll (HTTP.Body_ resp)).1 in
                (fail (ErrorPtr ErrorTypeAPI
                         ("API returned status " +:+ pretty (HTTP.StatusCode resp)
                          +:+ ": " +:+ body) None),
                 [req])
              else
                match json_Decode env (HTTP.Body_ resp) with
                | Err e =>
                    (fail (ErrorPtr ErrorTypeAPI "failed to parse JSON response" (Some e)),
                     [req])
                | Ok apiResp =>
                    (mkReturn (Some (convertToCurrentWeather apiResp)) None, [req])
                end
          end
      end
  end.

(** One call of [GetCurrentWeather], seen from outside: what it
    returned, the semaphore it left behind, the requests it handed to the
    HTTP client. *)
Record Outcome : Type := mkOutcome {
  returned : Return;
  sem_after : chan;
  sent : list HTTP.Request
}.

(** [func (c *Client) GetCurrentWeather(ctx context.Context, latitude,
    longitude float64)], run without
    interference from other goroutines. [None] stands for a call that
    never returns (a deferred receive on an empty channel). *)
Definition GetCurrentWeather (coin : bool) (c : Client) (ctx : Context)
  (latitude longitude : float64) : option Outcome :=
  match checkCoordinates latitude longitude with
  | Some e => Some (mkOutcome (fail e) (semaphore c) [])
  | None =>
      match select coin (semaphore c) ctx with
      | arm_send =>
          sem1 ← Chan.send (semaphore c);
          let '(r, reqs) := fetch (with_semaphore sem1 c) ctx latitude longitude in
          (* the deferred [<-c.semaphore] *)
          sem2 ← Chan.recv sem1;
          Some (mkOutcome r sem2 reqs)
      | arm_done =>
          Some (mkOutcome (mkReturn None (Ctx.Err ctx)) (semaphore c) [])
      | arm_default =>
          Some (mkOutcome (fail limitExceeded) (semaphore c) [])
      end
  end.

End Gateway.

(** ** Several goroutines calling one client *)

(** Where a call of [GetCurrentWeather] stands: entered and not yet past
    the [select]; holding a slot, with the release deferred; or returned,
    with its result and the requests it handed to the HTTP client. *)
Inductive call : Type :=
  | Entered (latitude longitude : float64)
  | Holding (latitude longitude : float64)
  | Finished (r : Return) (reqs : list HTTP.Request).

(** The shared semaphore and the calls in progress. *)
Record World : Type := mkWorld {
  pool  : chan;
  calls : list call
}.

Section Interleaving.

Variable env : Env.
(** The client all goroutines share; the state of its semaphore is the
    [pool] of the world. *)
Variable c : Client.

(** Lines 94-118: the range tests and the [select], as one atomic step
    of the calling goroutine. The context is given by its state at that
    moment. *)
Definition arrive (coin : bool) (sem : chan) (ctx : Context)
  (latitude longitude : float64) : option (chan * call) :=
  match checkCoordinates env latitude longitude with
  | Some e => Some (sem, Finished (fail e) [])
  | None =>
      match select coin sem ctx with
      | arm_send =>
          sem1 ← Chan.send sem; Some (sem1, Holding latitude longitude)
      | arm_done => Some (sem, Finished (mkReturn None (Ctx.Err ctx)) [])
      | arm_default => Some (sem, Finished (fail limitExceeded) [])
      end
  end.

(** Lines 120-172 followed by the deferred receive: the step that ends a
    call which holds a slot. *)
Definition finish (sem : chan) (ctx : Context) (latitude longitude : float64)
  : option (chan * call) :=
  let '(r, reqs) := fetch env (with_semaphore sem c) ctx latitude longitude in
  sem2 ← Chan.recv sem; Some (sem2, Finished r reqs).

(** One goroutine moves; which one, the state of its context and the
    coin of its [select] are free. A step that would block is no step. *)
Inductive step : World -> World -> Prop :=
  | step_admit w i coin ctx latitude longitude sem' k :
      calls w !! i = Some (Entered latitude longitude) ->
      arrive coin (pool w) ctx latitude longitude = Some (sem', k) ->
      step w (mkWorld sem' (<[i := k]> (calls w)))
  | step_finish w i ctx latitude longitude sem' k :
      calls w !! i = Some (Holding latitude longitude) ->
      finish (pool w) ctx latitude longitude = Some (sem', k) ->
      step w (mkWorld sem' (<[i := k]> (calls w))).

Definition is_holding (k : call) : bool :=
  match k with Holding _ _ => true | _ => false end.

Definition is_finished (k : call) : bool :=
  match k with Finished _ _ => true | _ => false end.

(** [tally f ks]: the sum of [f] over the calls. *)
Definition tally (f : call -> nat) (ks : list call) : nat :=
  sum_list (f <$> ks).

(** The number of calls that hold a slot. *)
Definition holders (ks : list call) : nat :=
  tally (fun k => if is_holding k then 1%nat else 0%nat) ks.

(** The steps each call still has to take, summed. *)
Definition remaining (k : call) : nat :=
  match k with
  | Entered _ _ => 2
  | Holding _ _ => 1
  | Finished _ _ => 0
  end.

Definition work (ks : list call) : nat := tally remaining ks.

(** What holds of the pool in every reachable world: the capacity is the
    constant of the package, and the elements in the channel are the
    tokens of the calls that hold a slot. *)
Record pool_inv (w : World) : Prop := mkPoolInv {
  inv_cap : chan_cap (pool w) = maxConcurrent;
  inv_len : chan_len (pool w) = holders (calls w);
  inv_bound : (chan_len (pool w) <= maxConcurrent)%nat
}.

End Interleaving.

(** The world in which the goroutines have just called a fresh client. *)
Definition launch (env : Env) (opts : list Option_)
  (args : list (float64 * float64)) : World :=
  mkWorld (semaphore (NewClient env opts))
          ((fun a => Entered a.1 a.2) <$> args).

(** [strings.Contains(s, sub)] *)
Definition contains (s sub : string) : Prop :=
  exists pre post, s = pre +:+ sub +:+ post.


(** ** Sample data and a mock environment *)

(** The response of the package's tests ([client_test.go], lines 29-50),
    decoded. The echoed coordinates and the apparent temperature are left
    open. *)
Module Sample.

Definition current (apparent : float64) : wire.currentWeatherResponse :=
  {| wire.Time                := Some "2025-12-29T10:00";
     wire.Temperature         := Some (of_decimal 153 1);
     wire.Windspeed           := Some (of_decimal 125 1);
     wire.Winddirection       := Some (of_decimal 2700 1);
     wire.Weathercode         := Some 3;
     wire.IsDay               := Some 1;
     wire.RelativeHumidity    := Some (of_decimal 650 1);
     wire.ApparentTemperature := Some apparent;
     wire.Precipitation       := Some (of_decimal 5 1);
     wire.Rain                := Some (of_decimal 3 1);
     wire.Showers             := Some (of_decimal 2 1);
     wire.Snowfall            := Some (of_decimal 0 1);
     wire.CloudCover          := Some (of_decimal 750 1);
     wire.PressureMSL         := Some (of_decimal 101325 2);
     wire.SurfacePressure     := Some (of_decimal 10100 1);
     wire.WindGusts           := Some (of_decimal 180 1) |}.

Definition response (latitude longitude apparent : float64)
  : wire.weatherResponse :=
  wire.mkResponse latitude longitude (current apparent).

(** A response in which only [time] and [temperature_2m] are not null. *)
Definition sparse (latitude longitude : float64) (time : string)
  (temperature : float64) : wire.weatherResponse :=
  wire.mkResponse latitude longitude
    {| wire.Time                := Some time;
       wire.Temperature         := Some temperature;
       wire.Windspeed           := None;
       wire.Winddirection       := None;
       wire.Weathercode         := None;
       wire.IsDay               := None;
       wire.RelativeHumidity    := None;
       wire.ApparentTemperature := None;
       wire.Precipitation       := None;
       wire.Rain                := None;
       wire.Showers             := None;
       wire.Snowfall            := None;
       wire.CloudCover          := None;
       wire.PressureMSL         := None;
       wire.SurfacePressure     := None;
       wire.WindGusts           := None |}.

(** Berlin, the coordinates of the package's tests and examples. *)
Definition berlin_lat : float64 := of_decimal 5252 2.
Definition berlin_lon : float64 := of_decimal 1341 2.

End Sample.

(** A stand-in for the libraries and for an [httptest] server, to run the
    embedded functions on concrete inputs. Float printing is a table that
    agrees with Go on the few values the examples print; the URL parser
    takes its argument as a URL without query and fragment (which is what
    the default base URL and the URL of a test server are); the JSON
    decoder answers any body that was read to its end with the response
    [decoded]; the server answers every request with [answer]. *)
Module Mock.

Definition formatFloat (x : float64) : string :=
  if decide (x = Sample.berlin_lat) then "52.52"
  else if decide (x = Sample.berlin_lon) then "13.41"
  else if decide (x = of_int 91) then "91"
  else if decide (x = of_int 90) then "90"
  else if decide (x = NaN) then "NaN"
  else "0".

Definition sprintf_2f (x : float64) : string :=
  if decide (x = Sample.berlin_lat) then "52.52"
  else if decide (x = Sample.berlin_lon) then "13.41"
  else if decide (x = of_int 91) then "91.00"
  else if decide (x = of_int 90) then "90.00"
  else if decide (x = NaN) then "NaN"
  else "0.00".

Definition decode (decoded : wire.weatherResponse) (b : HTTP.Body)
  : res wire.weatherResponse :=
  match HTTP.failure b with
  | None => Ok decoded
  | Some e => Err e
  end.

Definition env (decoded : wire.weatherResponse) (answer : res HTTP.Response)
  : Env :=
  {| FormatFloat := formatFloat;
     Sprintf_2f := sprintf_2f;
     url_Parse := fun s => Ok (URL.mkURL s false "" "");
     url_ParseQuery := fun _ => [];
     http_NewRequestWithContext := fun ctx method url => Ok (HTTP.mkRequest method url ctx);
     json_Decode := decode decoded;
     http_DefaultTransport := fun _ => answer |}.

(** The answer of a server that writes [status] and then [body]. *)
Definition reply (status : Z) (body : string) : res HTTP.Response :=
  Ok (HTTP.mkResp status (HTTP.mkBody body None)).

(** A client whose ten slots are all taken. *)
Definition busy (c : Client) : Client :=
  with_semaphore (mkChan (chan_cap (semaphore c)) (chan_cap (semaphore c))) c.

End Mock.

(** [present_or_zero p z x]: the snapshot field [x] is the value behind
    the wire pointer [p], or the zero value [z] when the pointer is nil. *)
Definition present_or_zero {A : Type} (p : option A) (z x : A) : Prop :=
  match p with
  | Some v => x = v
  | None => x = z
  end.

(** The exit paths of lines 120-172, one constructor per [return]. *)
Inductive fetch_exit (env : Env) (c : Client) (ctx : Context)
  (latitude longitude : float64) : Return -> list HTTP.Request -> Prop :=
  | exit_url e :
      buildRequestURL env c latitude longitude = Err e ->
      fetch_exit env c ctx latitude longitude
        (fail (ErrorPtr ErrorTypeValidation "failed to build request URL" (Some e))) []
  | exit_request reqURL e :
      buildRequestURL env c latitude longitude = Ok reqURL ->
      http_NewRequestWithContext env ctx HTTP.MethodGet reqURL = Err e ->
      fetch_exit env c ctx latitude longitude
        (fail (ErrorPtr ErrorTypeNetwork "failed to create HTTP request" (Some e))) []
  | exit_transport reqURL req e :
      buildRequestURL env c latitude longitude = Ok reqURL ->
      http_NewRequestWithContext env ctx HTTP.MethodGet reqURL = Ok req ->
      HTTP.Do (httpClient c) req = Err e ->
      fetch_exit env c ctx latitude longitude
        (fail (ErrorPtr ErrorTypeNetwork "failed to execute HTTP request" (Some e))) [req]
  | exit_status reqURL req resp :
      buildRequestURL env c latitude longitude = Ok reqURL ->
      http_NewRequestWithContext env ctx HTTP.MethodGet reqURL = Ok req ->
      HTTP.Do (httpClient c) req = Ok resp ->
      HTTP.StatusCode resp <> HTTP.StatusOK ->
      fetch_exit env c ctx latitude longitude
        (fail (ErrorPtr ErrorTypeAPI
                 ("API returned status " +:+ pretty (HTTP.StatusCode resp) +:+ ": "
                  +:+ HTTP.content (HTTP.Body_ resp)) None)) [req]
  | exit_decode reqURL req resp e :
      buildRequestURL env c latitude longitude = Ok reqURL ->
      http_NewRequestWithContext env ctx HTTP.MethodGet reqURL = Ok req ->
      HTTP.Do (httpClient c) req = Ok resp ->
      HTTP.StatusCode resp = HTTP.StatusOK ->
      json_Decode env (HTTP.Body_ resp) = Err e ->
      fetch_exit env c ctx latitude longitude
        (fail (ErrorPtr ErrorTypeAPI "failed to parse JSON response" (Some e))) [req]
  | exit_success reqURL req resp apiResp :
      buildRequestURL env c latitude longitude = Ok reqURL ->
      http_NewRequestWithContext env ctx HTTP.MethodGet reqURL = Ok req ->
      HTTP.Do (httpClient c) req = Ok resp ->
      HTTP.StatusCode resp = HTTP.StatusOK ->
      json_Decode env (HTTP.Body_ resp) = Ok apiResp ->
      fetch_exit env c ctx latitude longitude
        (mkReturn (Some (convertToCurrentWeather apiResp)) None) [req].

(** The preconditions under which a call reaches the round trip and gets
    an answer: the range tests pass, the [select] takes the send arm, the
    URL is built, the request is created, and the client answers [resp]. *)
Record answered (env : Env) (coin : bool) (c : Client) (ctx : Context)
  (latitude longitude : float64) (req : HTTP.Request) (resp : HTTP.Response)
  : Prop := mkAnswered {
  ans_checked : checkCoordinates env latitude longitude = None;
  ans_slot : select coin (semaphore c) ctx = arm_send;
  ans_url : exists reqURL,
    buildRequestURL env c latitude longitude = Ok reqURL
    /\ http_NewRequestWithContext env ctx HTTP.MethodGet reqURL = Ok req;
  ans_reply : HTTP.Do (httpClient c) req = Ok resp
}.

(** The 15 variables the specification and [TestGetCurrentWeather_Success]
    expect as the value of the query parameter [current], in their order. *)
Definition currentFields : list string :=
  [ "temperature_2m"; "relative_humidity_2m"; "apparent_temperature"; "is_day";
    "precipitation"; "rain"; "showers"; "snowfall"; "weather_code";
    "cloud_cover"; "pressure_msl"; "surface_pressure"; "wind_speed_10m";
    "wind_direction_10m"; "wind_gusts_10m" ].

(** ** Further notions for the properties of Part III *)

(** A call that got past the range tests and the [select], built its URL
    and created the request [req]: the next thing it does is
    [c.httpClient.Do(req)]. *)
Record dispatched (env : Env) (coin : bool) (c : Client) (ctx : Context)
  (latitude longitude : float64) (req : HTTP.Request) : Prop := mkDispatched {
  dis_checked : checkCoordinates env latitude longitude = None;
  dis_slot : select coin (semaphore c) ctx = arm_send;
  dis_url : exists reqURL,
    buildRequestURL env c latitude longitude = Ok reqURL
    /\ http_NewRequestWithContext env ctx HTTP.MethodGet reqURL = Ok req
}.



(** The arguments of one call, with the coin of its [select]. *)
Record invocation : Type := mkInvocation {
  inv_coin : bool;
  inv_ctx : Context;
  inv_latitude : float64;
  inv_longitude : float64
}.

(** Calls made one after the other on the same client, each starting when
    the one before has returned. *)
Fixpoint run_sequence (env : Env) (c : Client) (l : list invocation)
  : option (list Outcome * Client) :=
  match l with
  | [] => Some ([], c)
  | i :: rest =>
      o ← GetCurrentWeather env (inv_coin i) c (inv_ctx i)
            (inv_latitude i) (inv_longitude i);
      '(os, c') ← run_sequence env (with_semaphore (sem_after o) c) rest;
      Some (o :: os, c')
  end.

(** A wire block in which every null is replaced by the value whose
    normal form is the zero value: [0.0], weather code [0], day flag [0],
    and the time string of the zero time. *)
Definition zeroFill (cur : wire.currentWeatherResponse)
  : wire.currentWeatherResponse :=
  {| wire.Time                := Some (default "0001-01-01T00:00" (wire.Time cur));
     wire.Temperature         := Some (default zero (wire.Temperature cur));
     wire.Windspeed           := Some (default zero (wire.Windspeed cur));
     wire.Winddirection       := Some (default zero (wire.Winddirection cur));
     wire.Weathercode         := Some (default 0 (wire.Weathercode cur));
     wire.IsDay               := Some (default 0 (wire.IsDay cur));
     wire.RelativeHumidity    := Some (default zero (wire.RelativeHumidity cur));
     wire.ApparentTemperature := Some (default zero (wire.ApparentTemperature cur));
     wire.Precipitation       := Some (default zero (wire.Precipitation cur));
     wire.Rain                := Some (default zero (wire.Rain cur));
     wire.Showers             := Some (default zero (wire.Showers cur));
     wire.Snowfall            := Some (default zero (wire.Snowfall cur));
     wire.CloudCover          := Some (default zero (wire.CloudCover cur));
     wire.PressureMSL         := Some (default zero (wire.PressureMSL cur));
     wire.SurfacePressure     := Some (default zero (wire.SurfacePressure cur));
     wire.WindGusts           := Some (default zero (wire.WindGusts cur)) |}.

(** A date and time of day that exists in the calendar, with a four-digit
    year. *)
Definition valid_civil (t : Time.Time) : Prop :=
  0 <= Time.Year t <= 9999
  /\ 1 <= Time.Month t <= 12
  /\ 1 <= Time.Day t <= Time.daysIn (Time.Month t) (Time.Year t)
  /\ 0 <= Time.Hour t <= 23
  /\ 0 <= Time.Minute t <= 59.




(** Variants of the mock environment in which one library call fails. *)
Module Faulty.

(** [url.Parse] rejects every URL with the error [e]. *)
Definition no_url (e : error) : Env :=
  let base := Mock.env (Sample.response zero zero zero) (Mock.reply 200 "{}") in
  {| FormatFloat := FormatFloat base;
     Sprintf_2f := Sprintf_2f base;
     url_Parse := fun _ => Err e;
     url_ParseQuery := url_ParseQuery base;
     http_NewRequestWithContext := http_NewRequestWithContext base;
     json_Decode := json_Decode base;
     http_DefaultTransport := http_DefaultTransport base |}.

(** [http.NewRequestWithContext] fails with the error [e]. *)
Definition no_request (e : error) : Env :=
  let base := Mock.env (Sample.response zero zero zero) (Mock.reply 200 "{}") in
  {| FormatFloat := FormatFloat base;
     Sprintf_2f := Sprintf_2f base;
     url_Parse := url_Parse base;
     url_ParseQuery := url_ParseQuery base;
     http_NewRequestWithContext := fun _ _ _ => Err e;
     json_Decode := json_Decode base;
     http_DefaultTransport := http_DefaultTransport base |}.

(** What [http.Client.Do] returns for a request whose context is already
    cancelled: a [*url.Error] around [context.Canceled]. *)
Definition canceled_Do : error :=
  foreign "Get: context canceled" (Some context_Canceled).

(** A body that breaks off after [content] with the read error [e]. *)
Definition truncated (status : Z) (content : string) (e : error)
  : res HTTP.Response :=
  Ok (HTTP.mkResp status (HTTP.mkBody content (Some e))).


End Faulty.

(* ===================================================================== *)
(** * Part II: properties                                                 *)
(* ===================================================================== *)

(** ** The normalizer *)

(** The binary64 data of some literals of the tests, against their bit
    patterns ([15.3] is [0x402E99999999999A], and so on). *)
Example literal_bits :
  of_decimal 153 1 = S754_finite false 8613134287346074 (-49)
  /\ of_decimal 3 1 = S754_finite false 5404319552844595 (-54)
  /\ of_decimal 101325 2 = S754_finite false 8912641254752256 (-43)
  /\ of_decimal 5252 2 = S754_finite false 7391532888421827 (-47)
  /\ of_decimal 1341 2 = S754_finite false 7549158875379794 (-49)
  /\ of_decimal 0 1 = zero
  /\ of_int 90 = S754_finite false 6333186975989760 (-46)
  /\ of_int (-180) = S754_finite true 6333186975989760 (-45).
Proof. repeat split; vm_compute; reflexivity. Qed.

Example Parse_sample :
  Time.Parse "2025-12-29T10:00" = Some (Time.mkTime 2025 12 29 10 0).
Proof. vm_compute. reflexivity. Qed.

Example Parse_no_such_day : Time.Parse "2025-02-29T10:00" = None.
Proof. vm_compute. reflexivity. Qed.

Example Parse_one_digit_hour :
  Time.Parse "2024-02-29T9:05" = Some (Time.mkTime 2024 2 29 9 5).
Proof. vm_compute. reflexivity. Qed.

Example Parse_extra_text : Time.Parse "2025-12-29T10:00:00" = None.
Proof. vm_compute. reflexivity. Qed.

(** C5. The sample response of the tests, with all 15 variables and the
    time present, normalizes to a snapshot that holds exactly the sample
    values: temperature 15.3, humidity 65.0, wind speed 12.5, wind
    direction 270.0, weather code 3, day flag set (wire value 1),
    precipitation 0.5, rain 0.3, showers 0.2, snowfall 0.0, cloud cover
    75.0, sea-level pressure 1013.25, surface pressure 1010.0, gusts 18.0,
    whatever the apparent temperature and the echoed coordinates are; and
    the time string, which the layout [2006-01-02T15:04] accepts, is
    reported as 2025-12-29 10:00 UTC. *)
Theorem convert_sample_roundtrip (latitude longitude apparent : float64) :
  Time.Parse "2025-12-29T10:00" = Some (Time.mkTime 2025 12 29 10 0)
  /\ convertToCurrentWeather (Sample.response latitude longitude apparent)
     = {| Latitude            := latitude;
          Longitude           := longitude;
          Time                := Time.mkTime 2025 12 29 10 0;
          Temperature         := of_decimal 153 1;
          RelativeHumidity    := of_decimal 650 1;
          ApparentTemperature := apparent;
          IsDay               := true;
          Precipitation       := of_decimal 5 1;
          Rain                := of_decimal 3 1;
          Showers             := of_decimal 2 1;
          Snowfall            := of_decimal 0 1;
          WeatherCode         := 3;
          CloudCover          := of_decimal 750 1;
          PressureMSL         := of_decimal 101325 2;
          SurfacePressure     := of_decimal 10100 1;
          WindSpeed           := of_decimal 125 1;
          WindDirection       := of_decimal 2700 1;
          WindGusts           := of_decimal 180 1 |}.
Proof.
  split; [vm_compute; reflexivity|].
  unfold convertToCurrentWeather, Sample.response, Sample.current; cbn [wire.CurrentWeather
    wire.Latitude wire.Longitude wire.Time wire.Temperature wire.Windspeed
    wire.Winddirection wire.Weathercode wire.IsDay wire.RelativeHumidity
    wire.ApparentTemperature wire.Precipitation wire.Rain wire.Showers
    wire.Snowfall wire.CloudCover wire.PressureMSL wire.SurfacePressure
    wire.WindGusts deref].
  replace (Time.Parse "2025-12-29T10:00") with (Some (Time.mkTime 2025 12 29 10 0))
    by (vm_compute; reflexivity).
  reflexivity.
Qed.

Lemma deref_present_or_zero {A : Type} (p : option A) (z : A) :
  present_or_zero p z (deref p z).
Proof. destruct p; reflexivity. Qed.

(** C7. The day flag of the snapshot is set exactly when the wire field
    [is_day] is present and equal to 1; any other present value, and a null
    field, give [false]. *)
Theorem IsDay_true_iff (apiResp : wire.weatherResponse) :
  (IsDay (convertToCurrentWeather apiResp) = true
   <-> wire.IsDay (wire.CurrentWeather apiResp) = Some 1)
  /\ IsDay (convertToCurrentWeather apiResp)
     = match wire.IsDay (wire.CurrentWeather apiResp) with
       | Some v => bool_decide (v = 1)
       | None => false
       end.
Proof.
  unfold convertToCurrentWeather; cbn [IsDay].
  destruct (wire.IsDay (wire.CurrentWeather apiResp)) as [v|]; split;
    try reflexivity.
  - rewrite Z.eqb_eq. split; [intros ->; reflexivity | congruence].
  - case_bool_decide as Hv.
    + subst v. reflexivity.
    + apply Z.eqb_neq. exact Hv.
  - split; discriminate.
Qed.

Example IsDay_other_values :
  forall la lo v, In v [0; 2; -1; 256 + 1; -2 ^ 63] ->
    IsDay (convertToCurrentWeather
             (wire.mkResponse la lo
                {| wire.Time := None; wire.Temperature := None;
                   wire.Windspeed := None; wire.Winddirection := None;
                   wire.Weathercode := None; wire.IsDay := Some v;
                   wire.RelativeHumidity := None;
                   wire.ApparentTemperature := None;
                   wire.Precipitation := None; wire.Rain := None;
                   wire.Showers := None; wire.Snowfall := None;
                   wire.CloudCover := None; wire.PressureMSL := None;
                   wire.SurfacePressure := None; wire.WindGusts := None |}))
    = false.
Proof.
  intros la lo v Hv. cbn in Hv.
  repeat (destruct Hv as [<-|Hv]; [reflexivity|]). destruct Hv.
Qed.

(** ** The exit paths of a call that holds a slot *)

Lemma fetch_exits env c ctx latitude longitude :
  fetch_exit env c ctx latitude longitude
    (fetch env c ctx latitude longitude).1 (fetch env c ctx latitude longitude).2.
Proof.
  unfold fetch.
  destruct (buildRequestURL env c latitude longitude) as [reqURL|e] eqn:Hurl;
    [|by apply exit_url].
  destruct (http_NewRequestWithContext env ctx HTTP.MethodGet reqURL)
    as [req|e] eqn:Hreq; [|by eapply exit_request].
  destruct (HTTP.Do (httpClient c) req) as [resp|e] eqn:Hdo;
    [|by eapply exit_transport].
  destruct (HTTP.StatusCode resp =? HTTP.StatusOK) eqn:Hst; cbn [negb].
  - apply Z.eqb_eq in Hst.
    destruct (json_Decode env (HTTP.Body_ resp)) as [apiResp|e] eqn:Hdec.
    + by eapply exit_success.
    + by eapply exit_decode.
  - apply Z.eqb_neq in Hst. by eapply exit_status.
Qed.

(** The semaphore plays no part between acquisition and release. *)
Lemma fetch_with_semaphore env c ch ctx latitude longitude :
  fetch env (with_semaphore ch c) ctx latitude longitude
  = fetch env c ctx latitude longitude.
Proof. reflexivity. Qed.

(** A send that the [select] chose cannot block, and the deferred receive
    finds the element the send put in. *)
Lemma select_send_ready coin sem ctx :
  select coin sem ctx = arm_send ->
  Chan.send sem = Some (mkChan (chan_cap sem) (S (chan_len sem)))
  /\ (chan_len sem < chan_cap sem)%nat.
Proof.
  unfold select, Chan.send.
  destruct (decide (chan_len sem < chan_cap sem)%nat); [done|].
  destruct (Ctx.Done_ready ctx); discriminate.
Qed.

Lemma recv_after_send sem :
  Chan.recv (mkChan (chan_cap sem) (S (chan_len sem))) = Some sem.
Proof. destruct sem; reflexivity. Qed.

(** The outcome of a call that got a slot. *)
Lemma GetCurrentWeather_slot env coin c ctx latitude longitude :
  checkCoordinates env latitude longitude = None ->
  select coin (semaphore c) ctx = arm_send ->
  GetCurrentWeather env coin c ctx latitude longitude
  = Some (mkOutcome (fetch env c ctx latitude longitude).1 (semaphore c)
                    (fetch env c ctx latitude longitude).2).
Proof.
  intros Hck Hsel. unfold GetCurrentWeather. rewrite Hck, Hsel.
  destruct (select_send_ready _ _ _ Hsel) as [-> _]. cbn.
  rewrite fetch_with_semaphore.
  destruct (fetch env c ctx latitude longitude) as [r reqs].
  destruct (semaphore c) as [cap n]. reflexivity.
Qed.

Lemma fetch_answered env coin c ctx latitude longitude req resp :
  answered env coin c ctx latitude longitude req resp ->
  fetch env c ctx latitude longitude
  = if negb (HTTP.StatusCode resp =? HTTP.StatusOK) then
      (fail (ErrorPtr ErrorTypeAPI
               ("API returned status " +:+ pretty (HTTP.StatusCode resp) +:+ ": "
                +:+ HTTP.content (HTTP.Body_ resp)) None), [req])
    else
      match json_Decode env (HTTP.Body_ resp) with
      | Err e =>
          (fail (ErrorPtr ErrorTypeAPI "failed to parse JSON response" (Some e)), [req])
      | Ok apiResp => (mkReturn (Some (convertToCurrentWeather apiResp)) None, [req])
      end.
Proof.
  intros [_ _ (reqURL & Hurl & Hreq) Hdo].
  unfold fetch. rewrite Hurl, Hreq, Hdo. reflexivity.
Qed.

Lemma GetCurrentWeather_success env coin c ctx latitude longitude req resp apiResp :
  answered env coin c ctx latitude longitude req resp ->
  HTTP.StatusCode resp = HTTP.StatusOK ->
  json_Decode env (HTTP.Body_ resp) = Ok apiResp ->
  GetCurrentWeather env coin c ctx latitude longitude
  = Some (mkOutcome (mkReturn (Some (convertToCurrentWeather apiResp)) None)
                    (semaphore c) [req]).
Proof.
  intros Hans Hst Hdec.
  rewrite GetCurrentWeather_slot by apply Hans.
  rewrite (fetch_answered _ _ _ _ _ _ _ _ Hans), Hst, Hdec. reflexivity.
Qed.

(** The mock server answers the Berlin request of a fresh client. *)
Lemma mock_answered decoded status body :
  let env := Mock.env decoded (Mock.reply status body) in
  answered env true (NewClient env []) ctx_live Sample.berlin_lat Sample.berlin_lon
    (HTTP.mkRequest "GET"
       "https://api.open-meteo.com/v1/forecast?current_weather=true&latitude=52.52&longitude=13.41&precipitation_unit=mm&temperature_unit=celsius&windspeed_unit=ms"
       ctx_live)
    (HTTP.mkResp status (HTTP.mkBody body None)).
Proof.
  intros env. split.
  - vm_compute. reflexivity.
  - vm_compute. reflexivity.
  - eexists. split; vm_compute; reflexivity.
  - reflexivity.
Qed.

(** C6. Normalization is a total function into snapshots and has no error
    result. Every nullable wire field that is present is copied, every
    null one leaves the zero value of its snapshot field: [0.0] for the
    float fields, [0] for the weather code, [false] for the day flag, the
    zero time for a null or unparseable time. A response whose only
    non-null fields are the time and the temperature gives that
    temperature, zero in every other numeric field and [false] as day
    flag. And a call that got a 200 answer which decoded returns the
    normalized snapshot with a nil error, whatever was decoded. *)
Theorem convert_total_zero_default (apiResp : wire.weatherResponse) :
  let cur := wire.CurrentWeather apiResp in
  let cw := convertToCurrentWeather apiResp in
  (present_or_zero (wire.Temperature cur) zero (Temperature cw)
   /\ present_or_zero (wire.RelativeHumidity cur) zero (RelativeHumidity cw)
   /\ present_or_zero (wire.ApparentTemperature cur) zero (ApparentTemperature cw)
   /\ present_or_zero (wire.Precipitation cur) zero (Precipitation cw)
   /\ present_or_zero (wire.Rain cur) zero (Rain cw)
   /\ present_or_zero (wire.Showers cur) zero (Showers cw)
   /\ present_or_zero (wire.Snowfall cur) zero (Snowfall cw)
   /\ present_or_zero (wire.Weathercode cur) 0 (WeatherCode cw)
   /\ present_or_zero (wire.CloudCover cur) zero (CloudCover cw)
   /\ present_or_zero (wire.PressureMSL cur) zero (PressureMSL cw)
   /\ present_or_zero (wire.SurfacePressure cur) zero (SurfacePressure cw)
   /\ present_or_zero (wire.Windspeed cur) zero (WindSpeed cw)
   /\ present_or_zero (wire.Winddirection cur) zero (WindDirection cw)
   /\ present_or_zero (wire.WindGusts cur) zero (WindGusts cw)
   /\ present_or_zero ((fun v => v =? 1) <$> wire.IsDay cur) false (IsDay cw)
   /\ present_or_zero (wire.Time cur ≫= Time.Parse) Time.zero (Time cw))
  /\ (forall la lo time t,
        convertToCurrentWeather (Sample.sparse la lo time t)
        = {| Latitude := la; Longitude := lo;
             Time := default Time.zero (Time.Parse time);
             Temperature := t;
             RelativeHumidity := zero; ApparentTemperature := zero;
             IsDay := false;
             Precipitation := zero; Rain := zero; Showers := zero;
             Snowfall := zero; WeatherCode := 0; CloudCover := zero;
             PressureMSL := zero; SurfacePressure := zero;
             WindSpeed := zero; WindDirection := zero; WindGusts := zero |})
  /\ (forall env coin c ctx latitude longitude req resp,
        answered env coin c ctx latitude longitude req resp ->
        HTTP.StatusCode resp = HTTP.StatusOK ->
        json_Decode env (HTTP.Body_ resp) = Ok apiResp ->
        GetCurrentWeather env coin c ctx latitude longitude
        = Some (mkOutcome (mkReturn (Some (convertToCurrentWeather apiResp)) None)
                          (semaphore c) [req])).
Proof.
  intros cur cw. split; [|split].
  - subst cw. unfold convertToCurrentWeather. fold cur.
    cbn [Temperature RelativeHumidity ApparentTemperature Precipitation Rain
         Showers Snowfall WeatherCode CloudCover PressureMSL SurfacePressure
         WindSpeed WindDirection WindGusts IsDay Time].
    repeat (split; [apply deref_present_or_zero|]). split.
    + destruct (wire.IsDay cur); reflexivity.
    + destruct (wire.Time cur) as [s|]; [|reflexivity]. cbn.
      destruct (Time.Parse s); reflexivity.
  - intros la lo time t. unfold convertToCurrentWeather, Sample.sparse.
    cbn [wire.CurrentWeather wire.Latitude wire.Longitude wire.Time
         wire.Temperature wire.Windspeed wire.Winddirection wire.Weathercode
         wire.IsDay wire.RelativeHumidity wire.ApparentTemperature
         wire.Precipitation wire.Rain wire.Showers wire.Snowfall
         wire.CloudCover wire.PressureMSL wire.SurfacePressure wire.WindGusts
         deref].
    destruct (Time.Parse time); reflexivity.
  - intros. by eapply GetCurrentWeather_success.
Qed.

(** The last part of C6 on the mock server: the sparse response, answered
    with status 200, comes back as a snapshot and a nil error. *)
Lemma convert_total_zero_default_witness :
  let decoded := Sample.sparse zero zero "2025-12-29T10:00" (of_decimal 153 1) in
  let env := Mock.env decoded (Mock.reply 200 "{}") in
  exists req,
    GetCurrentWeather env true (NewClient env []) ctx_live
      Sample.berlin_lat Sample.berlin_lon
    = Some (mkOutcome (mkReturn (Some (convertToCurrentWeather decoded)) None)
                      (semaphore (NewClient env [])) [req]).
Proof.
  intros decoded env. eexists.
  apply (proj2 (proj2 (convert_total_zero_default decoded)) env true
           (NewClient env []) ctx_live Sample.berlin_lat Sample.berlin_lon
           _ _ (mock_answered decoded 200 "{}")); reflexivity.
Defined.

(** C10. The coordinates of the snapshot are those of the decoded body,
    not those of the call: the normalizer copies them from the response,
    a successful call returns them whatever its arguments were, and on a
    server that echoes the grid point (52.5, 13.4) for the request (52.52,
    13.41) the snapshot carries the grid point, which differs from the
    arguments. *)
Theorem coordinates_from_body :
  (forall apiResp,
     Latitude (convertToCurrentWeather apiResp) = wire.Latitude apiResp
     /\ Longitude (convertToCurrentWeather apiResp) = wire.Longitude apiResp)
  /\ (forall env coin c ctx latitude longitude req resp apiResp,
        answered env coin c ctx latitude longitude req resp ->
        HTTP.StatusCode resp = HTTP.StatusOK ->
        json_Decode env (HTTP.Body_ resp) = Ok apiResp ->
        exists o w,
          GetCurrentWeather env coin c ctx latitude longitude = Some o
          /\ returned o = mkReturn (Some w) None
          /\ Latitude w = wire.Latitude apiResp
          /\ Longitude w = wire.Longitude apiResp)
  /\ (let decoded :=
        Sample.response (of_decimal 525 1) (of_decimal 134 1) (of_decimal 141 1) in
      let env := Mock.env decoded (Mock.reply 200 "{}") in
      exists o w,
        GetCurrentWeather env true (NewClient env []) ctx_live
          Sample.berlin_lat Sample.berlin_lon = Some o
        /\ returned o = mkReturn (Some w) None
        /\ Latitude w = of_decimal 525 1 /\ Longitude w = of_decimal 134 1
        /\ Latitude w <> Sample.berlin_lat /\ Longitude w <> Sample.berlin_lon
        /\ SFeqb (Latitude w) Sample.berlin_lat = false
        /\ SFeqb (Longitude w) Sample.berlin_lon = false).
Proof.
  split; [|split].
  - intros apiResp. split; reflexivity.
  - intros env coin c ctx latitude longitude req resp apiResp Hans Hst Hdec.
    eexists _, _. split; [by eapply GetCurrentWeather_success|].
    repeat split.
  - intros decoded env. eexists _, _.
    split; [eapply GetCurrentWeather_success;
            [apply (mock_answered decoded 200 "{}") | reflexivity | reflexivity]|].
    split; [reflexivity|].
    repeat split; try (vm_compute; congruence); vm_compute; reflexivity.
Qed.

Lemma coordinates_from_body_witness :
  let decoded :=
    Sample.response (of_decimal 525 1) (of_decimal 134 1) (of_decimal 141 1) in
  let env := Mock.env decoded (Mock.reply 200 "{}") in
  exists o w,
    GetCurrentWeather env true (NewClient env []) ctx_live
      Sample.berlin_lat Sample.berlin_lon = Some o
    /\ returned o = mkReturn (Some w) None
    /\ Latitude w = of_decimal 525 1
    /\ Longitude w = of_decimal 134 1.
Proof.
  intros decoded env.
  apply (proj1 (proj2 coordinates_from_body) env true (NewClient env []) ctx_live
           Sample.berlin_lat Sample.berlin_lon _ _ decoded
           (mock_answered decoded 200 "{}")); reflexivity.
Defined.

(** ** Upstream status *)

Lemma contains_mid (pre sub post : string) : contains (pre +:+ sub +:+ post) sub.
Proof. by exists pre, post. Qed.

Lemma contains_end (pre sub : string) : contains (pre +:+ sub) sub.
Proof.
  exists pre, "". f_equal. induction sub as [|a sub IH]; [done|].
  change (String a sub = String a (sub +:+ "")). by f_equal.
Qed.

Lemma app_assoc_string (a b c : string) : (a +:+ b) +:+ c = a +:+ (b +:+ c).
Proof.
  induction a as [|x a IH]; [done|].
  change (String x ((a +:+ b) +:+ c) = String x (a +:+ (b +:+ c))). by f_equal.
Qed.

(** C8. A call that is answered with a status other than 200 returns no
    snapshot and an [*Error] of type [ErrorTypeAPI] without cause, whose
    message is [API returned status <code>: <body>]: it contains the
    status code in decimal and whatever could be read of the body. *)
Theorem non200_is_API_error env coin c ctx latitude longitude req resp :
  answered env coin c ctx latitude longitude req resp ->
  HTTP.StatusCode resp <> HTTP.StatusOK ->
  exists msg,
    GetCurrentWeather env coin c ctx latitude longitude
    = Some (mkOutcome (mkReturn None (Some (ErrorPtr ErrorTypeAPI msg None)))
                      (semaphore c) [req])
    /\ msg = "API returned status " +:+ pretty (HTTP.StatusCode resp) +:+ ": "
             +:+ (HTTP.ReadAll (HTTP.Body_ resp)).1
    /\ contains msg (pretty (HTTP.StatusCode resp))
    /\ contains msg (HTTP.ReadAll (HTTP.Body_ resp)).1
    /\ Errors.Error (ErrorPtr ErrorTypeAPI msg None) = msg.
Proof.
  intros Hans Hst. eexists. split; [|split; [reflexivity|]].
  - rewrite GetCurrentWeather_slot by apply Hans.
    rewrite (fetch_answered _ _ _ _ _ _ _ _ Hans).
    apply Z.eqb_neq in Hst. rewrite Hst. reflexivity.
  - split; [apply contains_mid|]. split; [|reflexivity].
    rewrite <- !app_assoc_string. apply contains_end.
Qed.

Lemma non200_is_API_error_witness :
  let env := Mock.env (Sample.response zero zero zero)
               (Mock.reply 500 "Error: Internal Server Error") in
  exists req,
    GetCurrentWeather env true (NewClient env []) ctx_live
      Sample.berlin_lat Sample.berlin_lon
    = Some (mkOutcome
              (mkReturn None
                 (Some (ErrorPtr ErrorTypeAPI
                          "API returned status 500: Error: Internal Server Error" None)))
              (semaphore (NewClient env [])) [req]).
Proof.
  intros env. eexists.
  destruct (non200_is_API_error env true (NewClient env []) ctx_live
              Sample.berlin_lat Sample.berlin_lon _ _
              (mock_answered (Sample.response zero zero zero) 500
                 "Error: Internal Server Error")) as (msg & Hcall & Hmsg & _).
  - vm_compute. discriminate.
  - rewrite Hcall, Hmsg. vm_compute. reflexivity.
Defined.

(** ** The exits of [GetCurrentWeather] *)

Lemma checkCoordinates_Validation env latitude longitude e :
  checkCoordinates env latitude longitude = Some e ->
  exists msg, e = ErrorPtr ErrorTypeValidation msg None.
Proof.
  unfold checkCoordinates. intros H.
  repeat case_match; simplify_eq; eauto.
Qed.

Lemma select_done coin sem ctx :
  select coin sem ctx = arm_done ->
  (Ctx.Err ctx = Some context_Canceled /\ ctx = ctx_canceled)
  \/ (Ctx.Err ctx = Some context_DeadlineExceeded /\ ctx = ctx_expired).
Proof.
  unfold select. destruct ctx; cbn; repeat case_match; intros; simplify_eq; eauto.
Qed.

Lemma select_default coin sem ctx :
  select coin sem ctx = arm_default <->
  ctx = ctx_live /\ (chan_cap sem <= chan_len sem)%nat.
Proof.
  unfold select, Chan.send.
  destruct (decide (chan_len sem < chan_cap sem)%nat), ctx, coin; cbn;
    split; intros H; destruct_and?; try congruence;
    try (split; [done|lia]); exfalso; lia.
Qed.

(** Every call returns, leaves the semaphore as it found it, and left
    through one of four doors. *)
Lemma GetCurrentWeather_exits env coin c ctx latitude longitude :
  exists o,
    GetCurrentWeather env coin c ctx latitude longitude = Some o
    /\ sem_after o = semaphore c
    /\ ((exists e, checkCoordinates env latitude longitude = Some e
                   /\ returned o = fail e /\ sent o = [])
        \/ (checkCoordinates env latitude longitude = None
            /\ select coin (semaphore c) ctx = arm_done
            /\ returned o = mkReturn None (Ctx.Err ctx) /\ sent o = [])
        \/ (checkCoordinates env latitude longitude = None
            /\ select coin (semaphore c) ctx = arm_default
            /\ returned o = fail limitExceeded /\ sent o = [])
        \/ (checkCoordinates env latitude longitude = None
            /\ select coin (semaphore c) ctx = arm_send
            /\ fetch_exit env c ctx latitude longitude (returned o) (sent o))).
Proof.
  destruct (checkCoordinates env latitude longitude) as [e|] eqn:Hck.
  { eexists. unfold GetCurrentWeather. rewrite Hck.
    split; [reflexivity|]. split; [reflexivity|]. left. eauto. }
  destruct (select coin (semaphore c) ctx) eqn:Hsel.
  - eexists. split; [by apply GetCurrentWeather_slot|].
    split; [reflexivity|]. do 3 right. repeat split. apply fetch_exits.
  - eexists. unfold GetCurrentWeather. rewrite Hck, Hsel.
    split; [reflexivity|]. split; [reflexivity|]. right; left. eauto.
  - eexists. unfold GetCurrentWeather. rewrite Hck, Hsel.
    split; [reflexivity|]. split; [reflexivity|]. right; right; left. eauto.
Qed.






(** ** The request URL *)

Lemma Get_cons k vs q key :
  URL.Get ((k, vs) :: q) key
  = if decide (k = key) then match vs with v :: _ => v | [] => "" end
    else URL.Get q key.
Proof.
  unfold URL.Get. cbn. destruct (decide (k = key)) as [->|Hne]; [done|].
  destruct (list_find _ q) as [[i [k' vs']]|]; cbn; done.
Qed.

Lemma Get_filter_ne k q key :
  k <> key ->
  URL.Get (filter (fun kv : string * list string => kv.1 <> k) q) key = URL.Get q key.
Proof.
  intros Hne. induction q as [|[k' vs] q IH]; [done|].
  rewrite filter_cons. cbn [fst]. destruct (decide (k' <> k)) as [Hk|Hk].
  - rewrite !Get_cons, IH. done.
  - apply dec_stable in Hk. subst k'. rewrite Get_cons, decide_False by done.
    exact IH.
Qed.

(** [q.Set(k, v)] followed by [q.Get(key)]. *)
Lemma Get_Set k v q key :
  URL.Get (URL.Set_ k v q) key = if decide (k = key) then v else URL.Get q key.
Proof.
  unfold URL.Set_. rewrite Get_cons.
  destruct (decide (k = key)); [done|]. by apply Get_filter_ne.
Qed.

Lemma Has_Set k v q key :
  URL.Has (URL.Set_ k v q) key = bool_decide (k = key) || URL.Has q key.
Proof.
  unfold URL.Has, URL.Set_. cbn [fmap list_fmap fst].
  apply eq_true_iff_eq.
  rewrite orb_true_iff, !bool_decide_eq_true, elem_of_cons, !list_elem_of_fmap.
  split.
  - intros [->|([k' vs] & -> & Hin)]; [by left|].
    apply list_elem_of_filter in Hin as [_ Hin]. right. by exists (k', vs).
  - intros [->|([k' vs] & -> & Hin)]; [by left|]. cbn.
    destruct (decide (k = k')) as [->|Hne]; [by left|].
    right. exists (k', vs). split; [done|].
    apply list_elem_of_filter. split; [cbn; congruence|done].
Qed.

(** C4 against the code. For Berlin on a client with the default base URL
    the request URL has the query
    [current_weather=true&latitude=52.52&longitude=13.41&precipitation_unit=mm&temperature_unit=celsius&windspeed_unit=ms];
    and whatever the coordinates and the base URL are, [buildRequestURL]
    sets the six keys [latitude], [longitude], [current_weather],
    [temperature_unit], [windspeed_unit], [precipitation_unit] and leaves
    the key [current] as the base URL had it: the 15 variables are never
    put into the query. *)
Theorem buildRequestURL_omits_current :
  (let env := Mock.env (Sample.response zero zero zero) (Mock.reply 200 "{}") in
   buildRequestURL env (NewClient env []) Sample.berlin_lat Sample.berlin_lon
   = Ok "https://api.open-meteo.com/v1/forecast?current_weather=true&latitude=52.52&longitude=13.41&precipitation_unit=mm&temperature_unit=celsius&windspeed_unit=ms")
  /\ (forall env latitude longitude q,
        let q' := setParameters env latitude longitude q in
        URL.Has q' "current" = URL.Has q "current"
        /\ URL.Get q' "current" = URL.Get q "current"
        /\ URL.Get q' "current_weather" = "true"
        /\ URL.Get q' "latitude" = FormatFloat env latitude
        /\ URL.Get q' "longitude" = FormatFloat env longitude
        /\ URL.Get q' "temperature_unit" = "celsius"
        /\ URL.Get q' "windspeed_unit" = "ms"
        /\ URL.Get q' "precipitation_unit" = "mm")
  /\ (forall env latitude longitude,
        URL.Get (setParameters env latitude longitude []) "current" = ""
        /\ URL.Get (setParameters env latitude longitude []) "current"
           <> URL.join "," currentFields).
Proof.
  split; [vm_compute; reflexivity|]. split.
  - intros env latitude longitude q q'. subst q'. unfold setParameters.
    rewrite !Has_Set, !Get_Set. cbn. done.
  - intros env latitude longitude. unfold setParameters.
    rewrite !Get_Set. cbn. split; [done|]. vm_compute. discriminate.
Qed.

(** ** The admission pool under interleaving *)

Lemma tally_insert f ks i k k' :
  ks !! i = Some k ->
  (tally f (<[i := k']> ks) + f k = tally f ks + f k')%nat.
Proof.
  unfold tally. revert i. induction ks as [|x ks IH]; intros [|i] Hi;
    simplify_eq/=; [lia|].
  specialize (IH i Hi). lia.
Qed.

Lemma tally_zero f ks :
  Forall (fun k => f k = 0%nat) ks -> tally f ks = 0%nat.
Proof. unfold tally. induction 1 as [|k ks Hk _ IH]; cbn; [done|]. lia. Qed.

Lemma tally_lookup_le f ks i k : ks !! i = Some k -> (f k <= tally f ks)%nat.
Proof.
  unfold tally. revert i. induction ks as [|x ks IH]; intros [|i] Hi;
    simplify_eq/=; [lia|].
  specialize (IH i Hi). lia.
Qed.

(** What the admission step can do: hand out a slot that was free, or end
    the call and leave the pool alone. *)
Lemma arrive_cases env coin sem ctx latitude longitude sem' k :
  arrive env coin sem ctx latitude longitude = Some (sem', k) ->
  (k = Holding latitude longitude
   /\ (chan_len sem < chan_cap sem)%nat
   /\ sem' = mkChan (chan_cap sem) (S (chan_len sem)))
  \/ (sem' = sem /\ exists r, k = Finished r []).
Proof.
  unfold arrive. intros H.
  destruct (checkCoordinates env latitude longitude); [right; naive_solver|].
  destruct (select coin sem ctx) eqn:Hsel; [|right; naive_solver..].
  destruct (select_send_ready _ _ _ Hsel) as [Hsend Hlt].
  rewrite Hsend in H. cbn in H. left. naive_solver.
Qed.

(** The admission step never blocks. *)
Lemma arrive_total env coin sem ctx latitude longitude :
  is_Some (arrive env coin sem ctx latitude longitude).
Proof.
  unfold arrive. destruct (checkCoordinates env latitude longitude); [done|].
  destruct (select coin sem ctx) eqn:Hsel; [|done..].
  destruct (select_send_ready _ _ _ Hsel) as [-> _]. done.
Qed.

(** The closing step gives the slot back, whatever the request came to. *)
Lemma finish_cases env c sem ctx latitude longitude sem' k :
  finish env c sem ctx latitude longitude = Some (sem', k) ->
  chan_len sem = S (chan_len sem') /\ chan_cap sem' = chan_cap sem
  /\ k = Finished (fetch env c ctx latitude longitude).1
                  (fetch env c ctx latitude longitude).2.
Proof.
  unfold finish. rewrite fetch_with_semaphore.
  destruct (fetch env c ctx latitude longitude) as [r reqs].
  unfold Chan.recv. destruct sem as [cap [|n]]; cbn; [done|].
  intros ?; by simplify_eq.
Qed.

Lemma finish_total env c sem ctx latitude longitude :
  (0 < chan_len sem)%nat -> is_Some (finish env c sem ctx latitude longitude).
Proof.
  intros Hpos. unfold finish.
  destruct (fetch env (with_semaphore sem c) ctx latitude longitude) as [r reqs].
  unfold Chan.recv. destruct sem as [cap [|n]]; cbn in *; [lia|done].
Qed.

Lemma step_pool_inv env c w w' : step env c w w' -> pool_inv w -> pool_inv w'.
Proof.
  intros Hstep [Hcap Hlen Hle].
  destruct Hstep as [w i coin ctx la lo sem' k Hi Hk|w i ctx la lo sem' k Hi Hk].
  - pose proof (tally_insert (fun k => if is_holding k then 1 else 0)%nat
                  _ _ _ k Hi) as Ht. cbn in Ht.
    apply arrive_cases in Hk as [(-> & Hlt & ->)|(-> & r & ->)];
      split; cbn [pool calls chan_cap chan_len is_holding] in *;
      unfold holders in *; lia.
  - pose proof (tally_insert (fun k => if is_holding k then 1 else 0)%nat
                  _ _ _ k Hi) as Ht. cbn in Ht.
    apply finish_cases in Hk as (Hl & Hc & ->).
    split; cbn [pool calls chan_cap chan_len is_holding] in *;
      unfold holders in *; lia.
Qed.

Lemma step_work env c w w' : step env c w w' -> (work (calls w') < work (calls w))%nat.
Proof.
  intros Hstep.
  destruct Hstep as [w i coin ctx la lo sem' k Hi Hk|w i ctx la lo sem' k Hi Hk];
    pose proof (tally_insert remaining _ _ _ k Hi) as Ht;
    cbn [calls remaining] in Ht |- *; unfold work.
  - apply arrive_cases in Hk as [(-> & _)|(_ & r & ->)];
      cbn [remaining] in Ht; lia.
  - apply finish_cases in Hk as (_ & _ & ->). cbn [remaining] in Ht. lia.
Qed.

Lemma step_length env c w w' : step env c w w' -> length (calls w') = length (calls w).
Proof. destruct 1; cbn; apply length_insert. Qed.

Lemma NewClient_semaphore env opts :
  semaphore (NewClient env opts) = Chan.make maxConcurrent.
Proof.
  unfold NewClient.
  generalize (HTTP.mkClient defaultTimeout (http_DefaultTransport env)), defaultBaseURL.
  induction opts as [|opt opts IH]; intros h url; [done|].
  destruct opt; cbn; apply IH.
Qed.

Lemma launch_pool_inv env opts args : pool_inv (launch env opts args).
Proof.
  unfold launch. split; cbn; rewrite NewClient_semaphore; cbn; [done| |lia].
  symmetry. apply tally_zero. apply Forall_fmap, Forall_true. done.
Qed.

Lemma reachable_pool_inv env c opts args w :
  rtc (step env c) (launch env opts args) w ->
  pool_inv w /\ length (calls w) = length args.
Proof.
  intros Hrtc.
  eapply (rtc_ind_r (fun w => pool_inv w /\ length (calls w) = length args));
    [| |exact Hrtc].
  - split; [apply launch_pool_inv|]. unfold launch. cbn. apply length_fmap.
  - intros w1 w2 _ Hstep [IH1 IH2].
    split; [by eapply step_pool_inv|]. by erewrite step_length.
Qed.

(** No deadlock: under the invariant, a call that has not returned can
    take its next step. *)
Lemma step_progress env c w i k :
  pool_inv w -> calls w !! i = Some k -> is_finished k = false ->
  exists w', step env c w w'.
Proof.
  intros [Hcap Hlen Hle] Hi Hk. destruct k as [la lo|la lo|]; [| |done].
  - destruct (arrive_total env true (pool w) ctx_live la lo) as [[sem' k] Harr].
    eexists. by eapply step_admit.
  - pose proof (tally_lookup_le (fun k => if is_holding k then 1 else 0)%nat
                  _ _ _ Hi) as Hpos. cbn in Hpos.
    destruct (finish_total env c (pool w) ctx_live la lo) as [[sem' k] Hfin].
    { unfold holders in Hlen. lia. }
    eexists. by eapply step_finish.
Qed.

Lemma all_finished_free w :
  pool_inv w -> Forall (fun k => is_finished k = true) (calls w) ->
  pool w = Chan.make maxConcurrent.
Proof.
  intros [Hcap Hlen Hle] Hall. destruct (pool w) as [cap n]. cbn in *.
  unfold Chan.make. f_equal; [done|]. rewrite Hlen. apply tally_zero.
  eapply Forall_impl; [exact Hall|]. by intros [].
Qed.

(** A call run on its own is its admission step followed, if it got a
    slot, by its closing step. *)
Lemma GetCurrentWeather_two_steps env coin c ctx latitude longitude :
  GetCurrentWeather env coin c ctx latitude longitude
  = '(sem1, k) ← arrive env coin (semaphore c) ctx latitude longitude;
    match k with
    | Entered _ _ => None
    | Holding la lo =>
        '(sem2, k2) ← finish env c sem1 ctx la lo;
        match k2 with
        | Finished r reqs => Some (mkOutcome r sem2 reqs)
        | _ => None
        end
    | Finished r reqs => Some (mkOutcome r sem1 reqs)
    end.
Proof.
  unfold GetCurrentWeather, arrive, finish.
  destruct (checkCoordinates env latitude longitude); [done|].
  destruct (select coin (semaphore c) ctx); [|done..].
  destruct (Chan.send (semaphore c)) as [sem1|]; [|done]. cbn.
  destruct (fetch env (with_semaphore sem1 c) ctx latitude longitude) as [r reqs].
  destruct (Chan.recv sem1); done.
Qed.

(** From every world that satisfies the invariant the calls can all be
    brought to their end. *)
Lemma run_to_completion env c w :
  pool_inv w ->
  exists w', rtc (step env c) w w'
             /\ Forall (fun k => is_finished k = true) (calls w').
Proof.
  remember (work (calls w)) as n eqn:Hn. revert w Hn.
  induction (lt_wf n) as [n _ IH]. intros w -> Hinv.
  destruct (decide (Forall (fun k => is_finished k = true) (calls w))) as [Hall|Hnot].
  { exists w. split; [apply rtc_refl|exact Hall]. }
  apply not_Forall_Exists in Hnot; [|apply _].
  apply Exists_exists in Hnot as (k & Hin & Hk).
  apply list_elem_of_lookup in Hin as [i Hi].
  destruct (step_progress env c w i k Hinv Hi) as [w1 Hstep].
  { cbn in Hk. by apply not_true_is_false. }
  destruct (IH (work (calls w1)) (step_work _ _ _ _ Hstep) w1 eq_refl
              (step_pool_inv _ _ _ _ Hstep Hinv)) as (w' & Hrun & Hall).
  exists w'. split; [by eapply rtc_l|exact Hall].
Qed.

(** C2. The pool of a new client has capacity 10 whatever the options,
    and is empty. In every world the goroutines can reach from there,
    the channel holds one token per call that holds a slot, at most 10;
    a call that has not returned can always move (acquiring never waits,
    and the deferred receive finds its token); every step brings the calls
    nearer their end, which they can reach; and when all have returned,
    on whatever exit path, the pool is empty again. A call that finds all
    10 slots taken while its context is live returns the Validation error
    [concurrent request limit exceeded (10)] at once and sends nothing.
    A call on its own always returns and leaves the semaphore as it found
    it. *)
Theorem admission_pool env opts args :
  let c := NewClient env opts in
  (chan_cap (semaphore c) = 10%nat /\ chan_len (semaphore c) = 0%nat)
  /\ (forall w, rtc (step env c) (launch env opts args) w ->
        chan_cap (pool w) = 10%nat
        /\ chan_len (pool w) = holders (calls w)
        /\ (chan_len (pool w) <= 10)%nat
        /\ length (calls w) = length args
        /\ (forall i k, calls w !! i = Some k -> is_finished k = false ->
              exists w', step env c w w')
        /\ (forall w', step env c w w' -> (work (calls w') < work (calls w))%nat)
        /\ (exists w', rtc (step env c) w w'
                       /\ Forall (fun k => is_finished k = true) (calls w'))
        /\ (Forall (fun k => is_finished k = true) (calls w) ->
            pool w = semaphore c))
  /\ (forall coin (c' : Client) latitude longitude,
        chan_cap (semaphore c') = 10%nat ->
        chan_len (semaphore c') = 10%nat ->
        (exists msg,
           GetCurrentWeather env coin c' ctx_live latitude longitude
           = Some (mkOutcome
                     (mkReturn None (Some (ErrorPtr ErrorTypeValidation msg None)))
                     (semaphore c') []))
        /\ (checkCoordinates env latitude longitude = None ->
            GetCurrentWeather env coin c' ctx_live latitude longitude
            = Some (mkOutcome
                      (mkReturn None
                         (Some (ErrorPtr ErrorTypeValidation
                                  "concurrent request limit exceeded (10)" None)))
                      (semaphore c') [])
            /\ forall w i,
                 pool w = semaphore c' ->
                 calls w !! i = Some (Entered latitude longitude) ->
                 step env c' w
                   (mkWorld (pool w)
                      (<[i := Finished (fail limitExceeded) []]> (calls w)))))
  /\ (forall coin (c' : Client) ctx latitude longitude,
        exists o, GetCurrentWeather env coin c' ctx latitude longitude = Some o
                  /\ sem_after o = semaphore c').
Proof.
  intros c. split; [|split; [|split]].
  - subst c. rewrite NewClient_semaphore. done.
  - intros w Hrun.
    destruct (reachable_pool_inv _ _ _ _ _ Hrun) as [Hinv Hlen].
    pose proof Hinv as [Hcap Hl Hle].
    split; [exact Hcap|]. split; [exact Hl|]. split; [exact Hle|].
    split; [exact Hlen|].
    split; [intros i k Hi Hk; by apply (step_progress env c w i k)|].
    split; [apply step_work|]. split; [by apply run_to_completion|].
    intros Hall. subst c. rewrite NewClient_semaphore.
    by apply all_finished_free.
  - intros coin c' latitude longitude Hcap Hfull.
    assert (Hsel : select coin (semaphore c') ctx_live = arm_default).
    { apply select_default. split; [done|lia]. }
    split.
    { unfold GetCurrentWeather.
      destruct (checkCoordinates env latitude longitude) as [e|] eqn:Hck.
      - destruct (checkCoordinates_Validation _ _ _ _ Hck) as [msg ->]. eauto.
      - rewrite Hsel. unfold fail, limitExceeded. eauto. }
    intros Hck. split.
    + unfold GetCurrentWeather. rewrite Hck, Hsel. reflexivity.
    + intros w i Hpool Hi. eapply step_admit with (coin := coin) (ctx := ctx_live);
        [exact Hi|]. unfold arrive. rewrite Hck, Hpool, Hsel. reflexivity.
  - intros coin c' ctx latitude longitude.
    destruct (GetCurrentWeather_exits env coin c' ctx latitude longitude)
      as (o & Hcall & Hsem & _). eauto.
Qed.

Lemma admission_pool_witness :
  let env := Mock.env (Sample.response zero zero zero) (Mock.reply 200 "{}") in
  let c' := Mock.busy (NewClient env []) in
  GetCurrentWeather env true c' ctx_live Sample.berlin_lat Sample.berlin_lon
  = Some (mkOutcome
            (mkReturn None
               (Some (ErrorPtr ErrorTypeValidation
                        "concurrent request limit exceeded (10)" None)))
            (semaphore c') []).
Proof.
  intros env c'.
  apply (proj2 (proj1 (proj2 (proj2 (admission_pool env [] []))) true c'
                  Sample.berlin_lat Sample.berlin_lon eq_refl eq_refl)).
  vm_compute. reflexivity.
Defined.

(** ** Comparison of binary64 data and the numbers they stand for *)

Lemma digits2_pos_bounds (m : positive) :
  2 ^ (Z.pos (digits2_pos m) - 1) <= Z.pos m < 2 ^ Z.pos (digits2_pos m).
Proof.
  induction m as [m IH|m IH|]; cbn [digits2_pos]; [| |cbn; lia].
  all: rewrite Pos2Z.inj_succ;
    replace (Z.succ (Z.pos (digits2_pos m)) - 1) with (Z.pos (digits2_pos m)) by lia;
    rewrite Z.pow_succ_r by lia;
    replace (2 ^ Z.pos (digits2_pos m)) with (2 * 2 ^ (Z.pos (digits2_pos m) - 1)) in *
      by (rewrite <- Z.pow_succ_r by lia; f_equal; lia);
    lia.
Qed.

(** What well-formedness says of a finite datum: the exponent is at least
    -1074, the mantissa has at most 53 bits, and exactly 53 unless the
    exponent is the smallest one. *)
Lemma wf_finite s m e :
  wf (S754_finite s m e) ->
  -1074 <= e <= 971 /\ Z.pos m < 2 ^ 53 /\ (-1074 < e -> 2 ^ 52 <= Z.pos m).
Proof.
  unfold wf, valid_binary, bounded, canonical_mantissa, fexp, emin, prec, emax.
  intros H. apply andb_true_iff in H as [Hc He].
  apply Z.eqb_eq in Hc. apply Z.leb_le in He.
  pose proof (digits2_pos_bounds m) as [Hlo Hhi].
  set (d := Z.pos (digits2_pos m)) in *.
  assert (Hd : 1 <= d) by (subst d; lia).
  split; [lia|]. split.
  - eapply Z.lt_le_trans; [exact Hhi|]. apply Z.pow_le_mono_r; lia.
  - intros Hgt. assert (d = 53) as Hd53 by lia. rewrite Hd53 in Hlo. exact Hlo.
Qed.

Lemma scaled_mantissa_lt m1 e1 m2 e2 s1 s2 :
  wf (S754_finite s1 m1 e1) -> wf (S754_finite s2 m2 e2) -> e1 < e2 ->
  Z.pos m1 * 2 ^ (e1 + 1074) < Z.pos m2 * 2 ^ (e2 + 1074).
Proof.
  intros H1 H2 Hlt.
  destruct (wf_finite _ _ _ H1) as (He1 & Hm1 & _).
  destruct (wf_finite _ _ _ H2) as (He2 & _ & Hm2).
  specialize (Hm2 ltac:(lia)).
  replace (e2 + 1074) with ((e1 + 1074) + (e2 - e1)) by lia.
  rewrite (Z.pow_add_r 2 (e1 + 1074) (e2 - e1)) by lia.
  assert (HP : 0 < 2 ^ (e1 + 1074)) by (apply Z.pow_pos_nonneg; lia).
  assert (HR : 2 ^ 1 <= 2 ^ (e2 - e1)) by (apply Z.pow_le_mono_r; lia).
  change (2 ^ 1) with 2 in HR. change (2 ^ 53) with (2 * 2 ^ 52) in Hm1.
  remember (2 ^ (e1 + 1074)) as P eqn:HeqP.
  remember (2 ^ (e2 - e1)) as R eqn:HeqR.
  remember (2 ^ 52) as T eqn:HeqT. clear HeqP HeqR HeqT.
  apply Z.lt_le_trans with (2 * T * P); [apply Zmult_lt_compat_r; lia|].
  apply Z.le_trans with (Z.pos m2 * (P * 2)).
  - replace (2 * T * P) with (T * (P * 2)) by ring.
    apply Z.mul_le_mono_nonneg_r; lia.
  - apply Z.mul_le_mono_nonneg_l; [lia|].
    apply Z.mul_le_mono_nonneg_l; lia.
Qed.

Lemma scaled_pos m e : 0 <= e + 1074 -> 0 < Z.pos m * 2 ^ (e + 1074).
Proof. intros. apply Z.mul_pos_pos; [lia|]. apply Z.pow_pos_nonneg; lia. Qed.

(** On well-formed numbers, IEEE comparison is the comparison of the
    numbers. *)
Lemma SFcompare_scaled (x y : float64) :
  wf x -> wf y -> is_finite x = true -> is_finite y = true ->
  SFcompare x y = Some (scaled x ?= scaled y).
Proof.
  intros Hx Hy Hfx Hfy.
  destruct x as [sx|sx| |sx mx ex], y as [sy|sy| |sy my ey]; try discriminate;
    cbn [SFcompare scaled].
  - reflexivity.
  - pose proof (scaled_pos my ey ltac:(destruct (wf_finite _ _ _ Hy); lia)).
    f_equal. symmetry. destruct sy; cbn [signed];
      [apply Z.compare_gt_iff|apply Z.compare_lt_iff];
      rewrite ?Pos2Z.opp_pos; lia.
  - pose proof (scaled_pos mx ex ltac:(destruct (wf_finite _ _ _ Hx); lia)).
    f_equal. symmetry. destruct sx; cbn [signed];
      [apply Z.compare_lt_iff|apply Z.compare_gt_iff];
      rewrite ?Pos2Z.opp_pos; lia.
  - pose proof (scaled_pos mx ex ltac:(destruct (wf_finite _ _ _ Hx); lia)) as Hpx.
    pose proof (scaled_pos my ey ltac:(destruct (wf_finite _ _ _ Hy); lia)) as Hpy.
    f_equal. symmetry.
    destruct sx, sy; cbn [signed]; rewrite <- ?Pos2Z.opp_pos.
    + (* both negative *)
      rewrite !Z.mul_opp_l, Z.compare_opp.
      destruct (Z.compare_spec ex ey) as [->|Hlt|Hgt].
      * rewrite <- Zmult_compare_compat_r
          by (apply Z.lt_gt, Z.pow_pos_nonneg;
              destruct (wf_finite _ _ _ Hy); lia).
        change (Pos.compare_cont Eq mx my) with (Z.pos mx ?= Z.pos my).
        apply Z.compare_antisym.
      * apply Z.compare_gt_iff. by eapply scaled_mantissa_lt.
      * apply Z.compare_lt_iff. by eapply scaled_mantissa_lt.
    + apply Z.compare_lt_iff. lia.
    + apply Z.compare_gt_iff. lia.
    + destruct (Z.compare_spec ex ey) as [->|Hlt|Hgt].
      * rewrite <- Zmult_compare_compat_r
          by (apply Z.lt_gt, Z.pow_pos_nonneg;
              destruct (wf_finite _ _ _ Hy); lia).
        reflexivity.
      * apply Z.compare_lt_iff. by eapply scaled_mantissa_lt.
      * apply Z.compare_gt_iff. by eapply scaled_mantissa_lt.
Qed.

Lemma F2Q_scaled (x : float64) :
  wf x -> is_finite x = true ->
  (F2Q x == Qmake (scaled x) (2 ^ 1074)%positive)%Q.
Proof.
  intros Hx Hfx. destruct x as [sx|sx| |s m e]; try discriminate.
  - unfold Qeq; cbn [F2Q scaled Qnum Qden]. lia.
  - destruct (wf_finite _ _ _ Hx) as (He & _ & _).
    unfold Qeq, F2Q, scaled. destruct e as [|p|p];
      cbn [Qnum Qden inject_Z]; rewrite ?Pos2Z.inj_pow.
    + rewrite Z.add_0_l. ring.
    + rewrite (Z.pow_add_r 2 (Z.pos p) 1074) by lia. ring.
    + replace (2 ^ 1074) with (2 ^ (Z.neg p + 1074) * 2 ^ Z.pos p).
      * ring.
      * rewrite <- Z.pow_add_r by lia. f_equal. lia.
Qed.

Lemma F2Q_lt_iff (x : float64) (n : Z) :
  wf x -> is_finite x = true ->
  (F2Q x < inject_Z n)%Q <-> scaled x < n * 2 ^ 1074.
Proof.
  intros Hx Hfx. rewrite (F2Q_scaled x Hx Hfx).
  unfold Qlt; cbn [Qnum Qden inject_Z]. rewrite Pos2Z.inj_pow, Z.mul_1_r.
  reflexivity.
Qed.

Lemma F2Q_gt_iff (x : float64) (n : Z) :
  wf x -> is_finite x = true ->
  (inject_Z n < F2Q x)%Q <-> n * 2 ^ 1074 < scaled x.
Proof.
  intros Hx Hfx. rewrite (F2Q_scaled x Hx Hfx).
  unfold Qlt; cbn [Qnum Qden inject_Z]. rewrite Pos2Z.inj_pow, Z.mul_1_r.
  reflexivity.
Qed.

(** The four bounds of the source are well-formed and stand for the
    integers they are written as. *)
Lemma bound_scaled (n : Z) :
  n ∈ [-90; 90; -180; 180] ->
  wf (of_int n) /\ is_finite (of_int n) = true /\ scaled (of_int n) = n * 2 ^ 1074.
Proof.
  intros Hn. repeat (apply elem_of_cons in Hn as [->|Hn]);
    [..|by apply elem_of_nil in Hn]; repeat split; vm_compute; reflexivity.
Qed.

(** Go's [x < n] and [x > n] against one of the four bounds, on a number. *)
Lemma lt_bound_iff (x : float64) (n : Z) :
  n ∈ [-90; 90; -180; 180] -> wf x -> is_finite x = true ->
  lt x (of_int n) = true <-> (F2Q x < inject_Z n)%Q.
Proof.
  intros Hn Hx Hfx. destruct (bound_scaled n Hn) as (Hwf & Hfin & Hsc).
  rewrite F2Q_lt_iff by done. unfold lt, SFltb.
  rewrite (SFcompare_scaled x (of_int n)) by done. rewrite Hsc.
  destruct (Z.compare_spec (scaled x) (n * 2 ^ 1074)); split; intros;
    try done; exfalso; lia.
Qed.

Lemma gt_bound_iff (x : float64) (n : Z) :
  n ∈ [-90; 90; -180; 180] -> wf x -> is_finite x = true ->
  gt x (of_int n) = true <-> (inject_Z n < F2Q x)%Q.
Proof.
  intros Hn Hx Hfx. destruct (bound_scaled n Hn) as (Hwf & Hfin & Hsc).
  rewrite F2Q_gt_iff by done. unfold gt, SFltb.
  rewrite (SFcompare_scaled (of_int n) x) by done. rewrite Hsc.
  destruct (Z.compare_spec (n * 2 ^ 1074) (scaled x)); split; intros;
    try done; exfalso; lia.
Qed.

(** ** Coordinate validation *)

(** One range test of the source, [x < lo || x > hi], says that [x] lies
    outside the interval. *)
Lemma range_test_outside (lo hi : Z) (x : float64) :
  lo ∈ [-90; 90; -180; 180] -> hi ∈ [-90; 90; -180; 180] -> wf x ->
  lt x (of_int lo) || gt x (of_int hi) = true <-> outside lo hi x.
Proof.
  intros Hlo Hhi Hx.
  destruct (bound_scaled lo Hlo) as (_ & Hflo & _).
  destruct (bound_scaled hi Hhi) as (_ & Hfhi & _).
  destruct (decide (is_finite x = true)) as [Hfx|Hnf].
  - rewrite orb_true_iff, lt_bound_iff, gt_bound_iff by done.
    by destruct x.
  - destruct x as [s|s| |s m e]; [by destruct Hnf| | |by destruct Hnf].
    + cbn [outside]. unfold lt, gt, SFltb.
      destruct (of_int lo), (of_int hi); try discriminate; destruct s; done.
    + cbn [outside]. unfold lt, gt, SFltb.
      destruct (of_int lo), (of_int hi); done.
Qed.

Lemma in_closed_not_outside (lo hi : Z) (x : float64) :
  in_closed lo hi x -> ~ outside lo hi x.
Proof.
  intros (Hfx & Hlo & Hhi) Hout.
  destruct x; try discriminate; cbn [outside] in Hout;
    (destruct Hout as [Hout|Hout];
     [exact (Qle_not_lt _ _ Hlo Hout)|exact (Qle_not_lt _ _ Hhi Hout)]).
Qed.

Lemma not_outside_in_closed (lo hi : Z) (x : float64) :
  is_finite x = true -> ~ outside lo hi x -> in_closed lo hi x.
Proof.
  intros Hfx Hout. split; [done|].
  destruct x; try discriminate; cbn [outside] in Hout;
    split; apply Qnot_lt_le; tauto.
Qed.

Lemma checkCoordinates_Some_iff env latitude longitude :
  is_Some (checkCoordinates env latitude longitude) <->
  lt latitude (of_int (-90)) || gt latitude (of_int 90) = true
  \/ lt longitude (of_int (-180)) || gt longitude (of_int 180) = true.
Proof.
  unfold checkCoordinates.
  destruct (lt latitude (of_int (-90)) || gt latitude (of_int 90));
    [split; eauto|].
  destruct (lt longitude (of_int (-180)) || gt longitude (of_int 180));
    [split; eauto|].
  split; [by intros [? ?]|by intros [?|?]].
Qed.

Lemma checkCoordinates_outside env latitude longitude :
  wf latitude -> wf longitude ->
  is_Some (checkCoordinates env latitude longitude) <->
  outside (-90) 90 latitude \/ outside (-180) 180 longitude.
Proof.
  intros Hla Hlo. rewrite checkCoordinates_Some_iff.
  rewrite !range_test_outside by (done || set_solver). done.
Qed.

(** C3. On well-formed coordinates the range tests fail exactly when a
    coordinate lies outside its interval. Every latitude in [[-90, 90]]
    with every longitude in [[-180, 180]] passes, the four corners
    included. A latitude outside [[-90, 90]] or a longitude outside
    [[-180, 180]] (an infinity counts as outside) makes the call return a
    Validation error at once: the semaphore is not touched and nothing is
    handed to the HTTP client. *)
Theorem coordinates_validated env coin c ctx latitude longitude :
  wf latitude -> wf longitude ->
  (in_closed (-90) 90 latitude -> in_closed (-180) 180 longitude ->
   checkCoordinates env latitude longitude = None)
  /\ (outside (-90) 90 latitude \/ outside (-180) 180 longitude ->
      exists msg,
        GetCurrentWeather env coin c ctx latitude longitude
        = Some (mkOutcome
                  (mkReturn None (Some (ErrorPtr ErrorTypeValidation msg None)))
                  (semaphore c) []))
  /\ (is_Some (checkCoordinates env latitude longitude)
      <-> outside (-90) 90 latitude \/ outside (-180) 180 longitude)
  /\ Forall (fun corner : Z * Z =>
               in_closed (-90) 90 (of_int corner.1)
               /\ in_closed (-180) 180 (of_int corner.2)
               /\ checkCoordinates env (of_int corner.1) (of_int corner.2) = None)
            [(90, 180); (90, -180); (-90, 180); (-90, -180)].
Proof.
  intros Hla Hlo.
  pose proof (checkCoordinates_outside env latitude longitude Hla Hlo) as Hiff.
  split; [|split; [|split; [exact Hiff|]]].
  - intros Hin1 Hin2.
    apply eq_None_not_Some. rewrite Hiff.
    intros [H|H];
      [exact (in_closed_not_outside _ _ _ Hin1 H)
      |exact (in_closed_not_outside _ _ _ Hin2 H)].
  - intros Hout. apply Hiff in Hout as [e He].
    destruct (checkCoordinates_Validation _ _ _ _ He) as [msg ->].
    exists msg. unfold GetCurrentWeather. rewrite He. reflexivity.
  - repeat (apply Forall_cons; split;
            [repeat split; vm_compute; congruence|]).
    apply Forall_nil. done.
Qed.

Lemma coordinates_validated_witness :
  let env := Mock.env (Sample.response zero zero zero) (Mock.reply 200 "{}") in
  checkCoordinates env (of_int 90) (of_int (-180)) = None
  /\ exists msg,
       GetCurrentWeather env true (NewClient env []) ctx_live (of_int 91) (of_int 0)
       = Some (mkOutcome
                 (mkReturn None (Some (ErrorPtr ErrorTypeValidation msg None)))
                 (semaphore (NewClient env [])) []).
Proof.
  intros env. split.
  - apply (proj1 (coordinates_validated env true (NewClient env []) ctx_live
                    (of_int 90) (of_int (-180)) eq_refl eq_refl));
      repeat split; vm_compute; congruence.
  - apply (proj1 (proj2 (coordinates_validated env true (NewClient env [])
                           ctx_live (of_int 91) (of_int 0) eq_refl eq_refl))).
    left. right. vm_compute. reflexivity.
Defined.

Example invalid_latitude_message :
  let env := Mock.env (Sample.response zero zero zero) (Mock.reply 200 "{}") in
  GetCurrentWeather env true (NewClient env []) ctx_live (of_int 91) (of_int 0)
  = Some (mkOutcome
            (mkReturn None
               (Some (ErrorPtr ErrorTypeValidation
                        "invalid latitude: 91.00 (must be between -90 and 90)" None)))
            (semaphore (NewClient env [])) []).
Proof. vm_compute. reflexivity. Qed.

(** ** NaN coordinates *)

Lemma select_live_free coin sem :
  (chan_len sem < chan_cap sem)%nat -> select coin sem ctx_live = arm_send.
Proof.
  intros Hfree. unfold select, Chan.send. by rewrite decide_True.
Qed.

Lemma fetch_sent env c ctx latitude longitude reqURL req :
  buildRequestURL env c latitude longitude = Ok reqURL ->
  http_NewRequestWithContext env ctx HTTP.MethodGet reqURL = Ok req ->
  (fetch env c ctx latitude longitude).2 = [req].
Proof.
  intros Hurl Hreq. unfold fetch. rewrite Hurl, Hreq.
  destruct (HTTP.Do (httpClient c) req) as [resp|e]; [|done].
  destruct (negb (HTTP.StatusCode resp =? HTTP.StatusOK)); [done|].
  by destruct (json_Decode env (HTTP.Body_ resp)).
Qed.

(** C9. Both comparisons of a range test are false on NaN, so a NaN
    coordinate passes its test: the range tests as a whole pass when each
    coordinate is NaN or lies in its interval. The call then goes on: with
    a free slot and a live context it builds the URL from the NaN
    coordinate and hands the request to the HTTP client. On the mock
    server the request for (NaN, NaN) carries [latitude=NaN] and
    [longitude=NaN] and the call succeeds. *)
Theorem NaN_passes_validation env :
  (forall x, lt NaN x = false /\ gt NaN x = false)
  /\ (forall latitude longitude,
        wf latitude -> wf longitude ->
        latitude = NaN \/ in_closed (-90) 90 latitude ->
        longitude = NaN \/ in_closed (-180) 180 longitude ->
        checkCoordinates env latitude longitude = None)
  /\ (forall coin c latitude longitude reqURL req,
        latitude = NaN \/ longitude = NaN ->
        checkCoordinates env latitude longitude = None ->
        (chan_len (semaphore c) < chan_cap (semaphore c))%nat ->
        buildRequestURL env c latitude longitude = Ok reqURL ->
        http_NewRequestWithContext env ctx_live HTTP.MethodGet reqURL = Ok req ->
        exists r,
          GetCurrentWeather env coin c ctx_live latitude longitude
          = Some (mkOutcome r (semaphore c) [req])
          /\ r = (fetch env c ctx_live latitude longitude).1)
  /\ (let decoded := Sample.response zero zero zero in
      let mock := Mock.env decoded (Mock.reply 200 "{}") in
      GetCurrentWeather mock true (NewClient mock []) ctx_live NaN NaN
      = Some (mkOutcome
                (mkReturn (Some (convertToCurrentWeather decoded)) None)
                (semaphore (NewClient mock []))
                [HTTP.mkRequest "GET"
                   "https://api.open-meteo.com/v1/forecast?current_weather=true&latitude=NaN&longitude=NaN&precipitation_unit=mm&temperature_unit=celsius&windspeed_unit=ms"
                   ctx_live])).
Proof.
  split; [|split; [|split]].
  - intros x. unfold lt, gt, SFltb. cbn. by destruct x.
  - intros latitude longitude Hla Hlo Hlat Hlon.
    apply eq_None_not_Some. rewrite checkCoordinates_outside by done.
    intros [Hout|Hout].
    + destruct Hlat as [->|Hin]; [done|]. by eapply in_closed_not_outside.
    + destruct Hlon as [->|Hin]; [done|]. by eapply in_closed_not_outside.
  - intros coin c latitude longitude reqURL req _ Hck Hfree Hurl Hreq.
    eexists. split; [|reflexivity].
    rewrite GetCurrentWeather_slot by (done || by apply select_live_free).
    by rewrite (fetch_sent _ _ _ _ _ _ _ Hurl Hreq).
  - vm_compute. reflexivity.
Qed.

Lemma NaN_passes_validation_witness :
  let mock := Mock.env (Sample.response zero zero zero) (Mock.reply 200 "{}") in
  checkCoordinates mock NaN (of_int 180) = None
  /\ exists r req,
       GetCurrentWeather mock true (NewClient mock []) ctx_live NaN (of_int 90)
       = Some (mkOutcome r (semaphore (NewClient mock [])) [req]).
Proof.
  intros mock. split.
  - apply (proj1 (proj2 (NaN_passes_validation mock)) NaN (of_int 180));
      [reflexivity | reflexivity | by left |].
    right. repeat split; vm_compute; congruence.
  - destruct (proj1 (proj2 (proj2 (NaN_passes_validation mock))) true
                (NewClient mock []) NaN (of_int 90)
                "https://api.open-meteo.com/v1/forecast?current_weather=true&latitude=NaN&longitude=90&precipitation_unit=mm&temperature_unit=celsius&windspeed_unit=ms"
                (HTTP.mkRequest "GET"
                   "https://api.open-meteo.com/v1/forecast?current_weather=true&latitude=NaN&longitude=90&precipitation_unit=mm&temperature_unit=celsius&windspeed_unit=ms"
                   ctx_live))
      as (r & Hcall & _).
    + by left.
    + vm_compute. reflexivity.
    + cbn. unfold maxConcurrent. lia.
    + vm_compute. reflexivity.
    + reflexivity.
    + eauto.
Defined.

(* ===================================================================== *)
(** * Part III: further properties of the code                            *)
(* ===================================================================== *)

(** ** The exits of the round trip *)

Lemma answered_dispatched env coin c ctx latitude longitude req resp :
  answered env coin c ctx latitude longitude req resp <->
  dispatched env coin c ctx latitude longitude req
  /\ HTTP.Do (httpClient c) req = Ok resp.
Proof.
  split.
  - intros [H1 H2 H3 H4]. by repeat split.
  - intros [[H1 H2 H3] H4]. by split.
Qed.

Lemma GetCurrentWeather_dispatched env coin c ctx latitude longitude req :
  dispatched env coin c ctx latitude longitude req ->
  GetCurrentWeather env coin c ctx latitude longitude
  = Some (mkOutcome (fetch env c ctx latitude longitude).1 (semaphore c) [req]).
Proof.
  intros [Hck Hsel (reqURL & Hurl & Hreq)].
  rewrite GetCurrentWeather_slot by done.
  by rewrite (fetch_sent _ _ _ _ _ _ _ Hurl Hreq).
Qed.

(** The mock libraries bring the Berlin call of a fresh client as far as
    the round trip, whatever the transport will answer. *)
Lemma mock_dispatched decoded answer ctx :
  let env := Mock.env decoded answer in
  dispatched env true (NewClient env []) ctx Sample.berlin_lat Sample.berlin_lon
    (HTTP.mkRequest "GET"
       "https://api.open-meteo.com/v1/forecast?current_weather=true&latitude=52.52&longitude=13.41&precipitation_unit=mm&temperature_unit=celsius&windspeed_unit=ms"
       ctx).
Proof.
  intros env. split.
  - vm_compute. reflexivity.
  - destruct ctx; vm_compute; reflexivity.
  - eexists. split; vm_compute; reflexivity.
Qed.

(** X1. When [c.httpClient.Do] fails, the call returns a Network
    [*Error] that wraps the transport's error: [Unwrap] gives it back,
    [errors.Is] sees through the wrapper to a cancellation or a deadline
    in its chain, the message is prefixed to the cause's, the one request
    was handed over and the slot is released. *)
Theorem transport_failure_is_Network env coin c ctx latitude longitude req e :
  dispatched env coin c ctx latitude longitude req ->
  HTTP.Do (httpClient c) req = Err e ->
  let failure := ErrorPtr ErrorTypeNetwork "failed to execute HTTP request" (Some e) in
  GetCurrentWeather env coin c ctx latitude longitude
  = Some (mkOutcome (mkReturn None (Some failure)) (semaphore c) [req])
  /\ Errors.Unwrap failure = Some e
  /\ Errors.Is_Canceled failure = Errors.Is_Canceled e
  /\ Errors.Is_DeadlineExceeded failure = Errors.Is_DeadlineExceeded e
  /\ Errors.As_Error failure
     = Some (ErrorTypeNetwork, "failed to execute HTTP request")
  /\ Errors.Error failure = "failed to execute HTTP request: " +:+ Errors.Error e.
Proof.
  intros Hdis Hdo failure. split; [|by repeat split].
  rewrite (GetCurrentWeather_dispatched _ _ _ _ _ _ _ Hdis).
  destruct Hdis as [_ _ (reqURL & Hurl & Hreq)].
  unfold fetch. rewrite Hurl, Hreq, Hdo. reflexivity.
Qed.

Lemma transport_failure_is_Network_witness :
  let env := Mock.env (Sample.response zero zero zero) (Err Faulty.canceled_Do) in
  exists req failure,
    GetCurrentWeather env true (NewClient env []) ctx_canceled
      Sample.berlin_lat Sample.berlin_lon
    = Some (mkOutcome (mkReturn None (Some failure)) (semaphore (NewClient env [])) [req])
    /\ Errors.Is_Canceled failure = true.
Proof.
  intros env. eexists _, _.
  destruct (transport_failure_is_Network env true (NewClient env []) ctx_canceled
              Sample.berlin_lat Sample.berlin_lon _ Faulty.canceled_Do
              (mock_dispatched _ _ ctx_canceled) eq_refl)
    as (Hcall & _ & Hcan & _).
  split; [exact Hcall|]. rewrite Hcan. reflexivity.
Defined.

(** X2. A 200 answer whose body does not decode gives an API [*Error]
    with the message [failed to parse JSON response] that wraps the
    decoder's error; no snapshot is returned. *)
Theorem malformed_body_is_API_error env coin c ctx latitude longitude req resp e :
  answered env coin c ctx latitude longitude req resp ->
  HTTP.StatusCode resp = HTTP.StatusOK ->
  json_Decode env (HTTP.Body_ resp) = Err e ->
  let failure := ErrorPtr ErrorTypeAPI "failed to parse JSON response" (Some e) in
  GetCurrentWeather env coin c ctx latitude longitude
  = Some (mkOutcome (mkReturn None (Some failure)) (semaphore c) [req])
  /\ Errors.Unwrap failure = Some e
  /\ Errors.As_Error failure = Some (ErrorTypeAPI, "failed to parse JSON response")
  /\ Errors.Error failure = "failed to parse JSON response: " +:+ Errors.Error e.
Proof.
  intros Hans Hst Hdec failure. split; [|by repeat split].
  rewrite GetCurrentWeather_slot by apply Hans.
  rewrite (fetch_answered _ _ _ _ _ _ _ _ Hans), Hst, Hdec. reflexivity.
Qed.

Lemma malformed_body_is_API_error_witness :
  let eof := foreign "unexpected EOF" None in
  let env := Mock.env (Sample.response zero zero zero)
               (Faulty.truncated 200 "{invalid json" eof) in
  exists req,
    GetCurrentWeather env true (NewClient env []) ctx_live
      Sample.berlin_lat Sample.berlin_lon
    = Some (mkOutcome
              (mkReturn None
                 (Some (ErrorPtr ErrorTypeAPI "failed to parse JSON response" (Some eof))))
              (semaphore (NewClient env [])) [req]).
Proof.
  intros eof env. eexists.
  apply (malformed_body_is_API_error env true (NewClient env []) ctx_live
           Sample.berlin_lat Sample.berlin_lon _
           (HTTP.mkResp 200 (HTTP.mkBody "{invalid json" (Some eof))) eof).
  - apply answered_dispatched. split; [apply mock_dispatched|reflexivity].
  - reflexivity.
  - reflexivity.
Defined.

(** X3. A base URL that [url.Parse] rejects makes [buildRequestURL] fail
    with that very error, and the call return a Validation [*Error]
    wrapping it; a request that cannot be created gives a Network [*Error]
    wrapping the reason. In both cases the slot that was taken is given
    back and nothing reaches the HTTP client. *)
Theorem setup_failures env coin c ctx latitude longitude :
  checkCoordinates env latitude longitude = None ->
  select coin (semaphore c) ctx = arm_send ->
  (forall e,
     url_Parse env (baseURL c +:+ "/forecast") = Err e ->
     buildRequestURL env c latitude longitude = Err e
     /\ GetCurrentWeather env coin c ctx latitude longitude
        = Some (mkOutcome
                  (mkReturn None
                     (Some (ErrorPtr ErrorTypeValidation
                              "failed to build request URL" (Some e))))
                  (semaphore c) []))
  /\ (forall reqURL e,
        buildRequestURL env c latitude longitude = Ok reqURL ->
        http_NewRequestWithContext env ctx HTTP.MethodGet reqURL = Err e ->
        GetCurrentWeather env coin c ctx latitude longitude
        = Some (mkOutcome
                  (mkReturn None
                     (Some (ErrorPtr ErrorTypeNetwork
                              "failed to create HTTP request" (Some e))))
                  (semaphore c) [])).
Proof.
  intros Hck Hsel. split.
  - intros e Hparse.
    assert (Hurl : buildRequestURL env c latitude longitude = Err e).
    { unfold buildRequestURL. by rewrite Hparse. }
    split; [exact Hurl|]. rewrite GetCurrentWeather_slot by done.
    unfold fetch. rewrite Hurl. reflexivity.
  - intros reqURL e Hurl Hreq. rewrite GetCurrentWeather_slot by done.
    unfold fetch. rewrite Hurl, Hreq. reflexivity.
Qed.

Lemma setup_failures_witness :
  let bad := foreign "parse: missing protocol scheme" None in
  let env := Faulty.no_url bad in
  GetCurrentWeather env true (NewClient env []) ctx_live
    Sample.berlin_lat Sample.berlin_lon
  = Some (mkOutcome
            (mkReturn None
               (Some (ErrorPtr ErrorTypeValidation "failed to build request URL"
                        (Some bad))))
            (semaphore (NewClient env [])) []).
Proof.
  intros bad env.
  apply (proj1 (setup_failures env true (NewClient env []) ctx_live
                  Sample.berlin_lat Sample.berlin_lon eq_refl eq_refl) bad eq_refl).
Defined.

(** X4. A call hands at most one request to the HTTP client (it never
    retries), and only after the range tests passed and a slot was taken;
    the request is the one [http.NewRequestWithContext] made for the
    caller's context, the method GET and the URL of [buildRequestURL]. *)
Theorem at_most_one_request env coin c ctx latitude longitude :
  exists o,
    GetCurrentWeather env coin c ctx latitude longitude = Some o
    /\ (length (sent o) <= 1)%nat
    /\ forall req, req ∈ sent o ->
         sent o = [req]
         /\ checkCoordinates env latitude longitude = None
         /\ select coin (semaphore c) ctx = arm_send
         /\ exists reqURL,
              buildRequestURL env c latitude longitude = Ok reqURL
              /\ http_NewRequestWithContext env ctx HTTP.MethodGet reqURL = Ok req.
Proof.
  destruct (GetCurrentWeather_exits env coin c ctx latitude longitude)
    as (o & Hcall & _ & Hexit).
  exists o. split; [exact Hcall|].
  destruct Hexit as [(e & _ & _ & Hs)|[(_ & _ & _ & Hs)|[(_ & _ & _ & Hs)
    |(Hck & Hsel & Hx)]]]; try (rewrite Hs; split; [cbn; lia|by intros ? ?%elem_of_nil]).
  destruct Hx as [e Hu|u e Hu Hr|u req e Hu Hr Hd|u req resp Hu Hr Hd Hst
                 |u req resp e Hu Hr Hd Hst Hdec|u req resp r Hu Hr Hd Hst Hdec];
    (split; [cbn; lia|]); intros req' Hin;
    try (by apply elem_of_nil in Hin);
    apply list_elem_of_singleton in Hin as ->; eauto 10.
Qed.

(** X5. A snapshot is returned only for a request that was sent and
    answered with status 200 and a body that decoded; it is the normal form
    of what was decoded, and the error beside it is nil. *)
Theorem snapshot_only_from_200 env coin c ctx latitude longitude o w :
  GetCurrentWeather env coin c ctx latitude longitude = Some o ->
  weather (returned o) = Some w ->
  err (returned o) = None
  /\ exists req resp apiResp,
       sent o = [req]
       /\ HTTP.Do (httpClient c) req = Ok resp
       /\ HTTP.StatusCode resp = 200
       /\ json_Decode env (HTTP.Body_ resp) = Ok apiResp
       /\ w = convertToCurrentWeather apiResp.
Proof.
  intros Hcall Hw.
  destruct (GetCurrentWeather_exits env coin c ctx latitude longitude)
    as (o' & Hcall' & _ & Hexit).
  rewrite Hcall in Hcall'. simplify_eq.
  destruct Hexit as [(e & _ & Hr & _)|[(_ & _ & Hr & _)|[(_ & _ & Hr & _)
    |(_ & _ & Hx)]]]; try (rewrite Hr in Hw; discriminate).
  destruct Hx; cbn in Hw; try discriminate. simplify_eq.
  split; [done|]. eauto 10.
Qed.

Lemma snapshot_only_from_200_witness :
  let decoded := Sample.response zero zero zero in
  let env := Mock.env decoded (Mock.reply 200 "{}") in
  exists o req resp,
    GetCurrentWeather env true (NewClient env []) ctx_live
      Sample.berlin_lat Sample.berlin_lon = Some o
    /\ sent o = [req]
    /\ HTTP.Do (httpClient (NewClient env [])) req = Ok resp
    /\ HTTP.StatusCode resp = 200.
Proof.
  intros decoded env.
  destruct (snapshot_only_from_200 env true (NewClient env []) ctx_live
              Sample.berlin_lat Sample.berlin_lon
              (mkOutcome (mkReturn (Some (convertToCurrentWeather decoded)) None)
                 (semaphore (NewClient env []))
                 [HTTP.mkRequest "GET"
                    "https://api.open-meteo.com/v1/forecast?current_weather=true&latitude=52.52&longitude=13.41&precipitation_unit=mm&temperature_unit=celsius&windspeed_unit=ms"
                    ctx_live])
              (convertToCurrentWeather decoded))
    as (_ & req & resp & apiResp & Hs & Hd & Hst & _).
  - vm_compute. reflexivity.
  - reflexivity.
  - eexists _, req, resp. split; [vm_compute; reflexivity|]. by repeat split.
Defined.

(** X6. What the kind of a returned [*Error] tells about the traffic. A
    Validation error means the HTTP client was not called; an API error
    means the one request was sent and answered; a Network error always
    carries its cause, and comes either from creating the request (nothing
    sent) or from the round trip (one request sent, no answer). *)
Theorem kind_tells_traffic env coin c ctx latitude longitude o ty msg cause :
  GetCurrentWeather env coin c ctx latitude longitude = Some o ->
  err (returned o) = Some (ErrorPtr ty msg cause) ->
  match ty with
  | ErrorTypeValidation => sent o = []
  | ErrorTypeAPI =>
      exists req resp,
        sent o = [req] /\ HTTP.Do (httpClient c) req = Ok resp
        /\ (HTTP.StatusCode resp = 200 -> is_Some cause)
  | ErrorTypeNetwork =>
      exists e, cause = Some e
        /\ (sent o = []
            \/ exists req, sent o = [req] /\ HTTP.Do (httpClient c) req = Err e)
  end.
Proof.
  intros Hcall He.
  destruct (GetCurrentWeather_exits env coin c ctx latitude longitude)
    as (o' & Hcall' & _ & Hexit).
  rewrite Hcall in Hcall'. simplify_eq.
  destruct Hexit as [(e & Hck & Hr & Hs)|[(_ & Hsel & Hr & Hs)|[(_ & _ & Hr & Hs)
    |(_ & _ & Hx)]]].
  - rewrite Hr in He. cbn in He. simplify_eq.
    by destruct (checkCoordinates_Validation _ _ _ _ Hck) as [m ?]; simplify_eq.
  - rewrite Hr in He. cbn in He.
    destruct (select_done _ _ _ Hsel) as [[Hc _]|[Hc _]]; rewrite Hc in He;
      discriminate.
  - rewrite Hr in He. cbn in He. unfold limitExceeded in He. by simplify_eq.
  - destruct Hx; cbn in He; simplify_eq; eauto 10.
    eexists _, _. split; [done|]. split; [done|]. intros Hst. done.
Qed.

Lemma kind_tells_traffic_witness :
  let env := Mock.env (Sample.response zero zero zero) (Mock.reply 503 "busy") in
  exists o req resp,
    GetCurrentWeather env true (NewClient env []) ctx_live
      Sample.berlin_lat Sample.berlin_lon = Some o
    /\ sent o = [req] /\ HTTP.Do (httpClient (NewClient env [])) req = Ok resp.
Proof.
  intros env.
  destruct (kind_tells_traffic env true (NewClient env []) ctx_live
              Sample.berlin_lat Sample.berlin_lon
              (mkOutcome
                 (fail (ErrorPtr ErrorTypeAPI "API returned status 503: busy" None))
                 (semaphore (NewClient env []))
                 [HTTP.mkRequest "GET"
                    "https://api.open-meteo.com/v1/forecast?current_weather=true&latitude=52.52&longitude=13.41&precipitation_unit=mm&temperature_unit=celsius&windspeed_unit=ms"
                    ctx_live])
              ErrorTypeAPI "API returned status 503: busy" None)
    as (req & resp & Hs & Hd & _).
  - vm_compute. reflexivity.
  - reflexivity.
  - eexists _, req, resp. split; [vm_compute; reflexivity|]. by split.
Defined.

(** ** Order of the checks *)

Lemma limitExceeded_eq :
  limitExceeded
  = ErrorPtr ErrorTypeValidation "concurrent request limit exceeded (10)" None.
Proof. vm_compute. reflexivity. Qed.

(** X7. The range tests come first and the latitude is tested before the
    longitude: a latitude outside [[-90, 90]] is reported as
    [invalid latitude: <value> (must be between -90 and 90)] whatever the
    longitude, the context and the pool are, so also on a cancelled
    context and with every slot taken; a longitude outside [[-180, 180]]
    is reported likewise when the latitude is not outside. *)
Theorem validation_comes_first env coin c ctx latitude longitude :
  wf latitude -> wf longitude ->
  (outside (-90) 90 latitude ->
   GetCurrentWeather env coin c ctx latitude longitude
   = Some (mkOutcome
             (mkReturn None
                (Some (ErrorPtr ErrorTypeValidation
                         ("invalid latitude: " +:+ Sprintf_2f env latitude
                          +:+ " (must be between -90 and 90)") None)))
             (semaphore c) []))
  /\ (~ outside (-90) 90 latitude -> outside (-180) 180 longitude ->
      GetCurrentWeather env coin c ctx latitude longitude
      = Some (mkOutcome
                (mkReturn None
                   (Some (ErrorPtr ErrorTypeValidation
                            ("invalid longitude: " +:+ Sprintf_2f env longitude
                             +:+ " (must be between -180 and 180)") None)))
                (semaphore c) [])).
Proof.
  intros Hla Hlo.
  assert (Hlat : lt latitude (of_int (-90)) || gt latitude (of_int 90) = true
                 <-> outside (-90) 90 latitude)
    by (apply range_test_outside; [repeat constructor..|done]).
  assert (Hlon : lt longitude (of_int (-180)) || gt longitude (of_int 180) = true
                 <-> outside (-180) 180 longitude)
    by (apply range_test_outside; [repeat constructor..|done]).
  unfold GetCurrentWeather, checkCoordinates. split.
  - intros Hout. apply Hlat in Hout. rewrite Hout. reflexivity.
  - intros Hin Hout. apply Hlon in Hout. rewrite Hout.
    destruct (lt latitude (of_int (-90)) || gt latitude (of_int 90)) eqn:Ht;
      [|reflexivity].
    destruct Hin. by apply Hlat.
Qed.

Lemma validation_comes_first_witness :
  let env := Mock.env (Sample.response zero zero zero) (Mock.reply 200 "{}") in
  GetCurrentWeather env true (Mock.busy (NewClient env [])) ctx_canceled
    (of_int 91) (S754_infinity false)
  = Some (mkOutcome
            (mkReturn None
               (Some (ErrorPtr ErrorTypeValidation
                        "invalid latitude: 91.00 (must be between -90 and 90)" None)))
            (semaphore (Mock.busy (NewClient env []))) []).
Proof.
  intros env.
  apply (proj1 (validation_comes_first env true (Mock.busy (NewClient env []))
                  ctx_canceled (of_int 91) (S754_infinity false) eq_refl eq_refl)).
  right. vm_compute. reflexivity.
Defined.

(** ** A context that is done before the call *)

Lemma select_done_ctx coin sem ctx :
  ctx <> ctx_live -> select coin sem ctx <> arm_default.
Proof. intros Hctx Hsel. apply select_default in Hsel as [? _]. done. Qed.

(** X8. On a context that is already done, the [select] does not prefer
    the cancellation: when a slot is free the runtime may take either arm,
    so the call may return the bare context error without touching the
    network, or go on as on a live context and hand its request to the
    HTTP client. Whichever way it goes, if the HTTP client answers the
    request of a cancelled context with an error that has
    [context.Canceled] in its chain, then [errors.Is(err,
    context.Canceled)] holds of the error the call returns. *)
Theorem done_context_race env c ctx latitude longitude :
  checkCoordinates env latitude longitude = None ->
  ctx <> ctx_live ->
  GetCurrentWeather env false c ctx latitude longitude
  = Some (mkOutcome (mkReturn None (Ctx.Err ctx)) (semaphore c) [])
  /\ ((chan_len (semaphore c) < chan_cap (semaphore c))%nat ->
      GetCurrentWeather env true c ctx latitude longitude
      = Some (mkOutcome (fetch env c ctx latitude longitude).1 (semaphore c)
                        (fetch env c ctx latitude longitude).2))
  /\ (forall coin reqURL req e,
        ctx = ctx_canceled ->
        buildRequestURL env c latitude longitude = Ok reqURL ->
        http_NewRequestWithContext env ctx HTTP.MethodGet reqURL = Ok req ->
        HTTP.Do (httpClient c) req = Err e ->
        Errors.Is_Canceled e = true ->
        exists o failure,
          GetCurrentWeather env coin c ctx latitude longitude = Some o
          /\ returned o = mkReturn None (Some failure)
          /\ Errors.Is_Canceled failure = true).
Proof.
  intros Hck Hctx. split; [|split].
  - unfold GetCurrentWeather. rewrite Hck.
    replace (select false (semaphore c) ctx) with arm_done; [done|].
    unfold select. destruct (Chan.send (semaphore c)), ctx; done.
  - intros Hfree. apply GetCurrentWeather_slot; [done|].
    unfold select, Chan.send. rewrite decide_True by done. by destruct ctx.
  - intros coin reqURL req e -> Hurl Hreq Hdo He.
    destruct (select coin (semaphore c) ctx_canceled) eqn:Hsel.
    + eexists _, _. split; [by apply GetCurrentWeather_slot|].
      unfold fetch. rewrite Hurl, Hreq, Hdo. cbn. split; [done|]. exact He.
    + eexists _, _. unfold GetCurrentWeather. rewrite Hck, Hsel.
      split; [done|]. by split.
    + by apply select_done_ctx in Hsel.
Qed.

Lemma done_context_race_witness :
  let env := Mock.env (Sample.response zero zero zero) (Err Faulty.canceled_Do) in
  GetCurrentWeather env false (NewClient env []) ctx_canceled
    Sample.berlin_lat Sample.berlin_lon
  = Some (mkOutcome (mkReturn None (Some context_Canceled))
                    (semaphore (NewClient env [])) [])
  /\ exists o failure,
       GetCurrentWeather env true (NewClient env []) ctx_canceled
         Sample.berlin_lat Sample.berlin_lon = Some o
       /\ returned o = mkReturn None (Some failure)
       /\ Errors.Is_Canceled failure = true.
Proof.
  intros env.
  destruct (done_context_race env (NewClient env []) ctx_canceled
              Sample.berlin_lat Sample.berlin_lon eq_refl ltac:(discriminate))
    as (Hfalse & _ & Hany).
  split; [exact Hfalse|].
  apply (Hany true
           "https://api.open-meteo.com/v1/forecast?current_weather=true&latitude=52.52&longitude=13.41&precipitation_unit=mm&temperature_unit=celsius&windspeed_unit=ms"
           (HTTP.mkRequest "GET"
              "https://api.open-meteo.com/v1/forecast?current_weather=true&latitude=52.52&longitude=13.41&precipitation_unit=mm&temperature_unit=celsius&windspeed_unit=ms"
              ctx_canceled)
           Faulty.canceled_Do eq_refl);
    vm_compute; reflexivity.
Defined.

(** ** Who is turned away *)

Lemma checkCoordinates_not_limit env latitude longitude e :
  checkCoordinates env latitude longitude = Some e -> e <> limitExceeded.
Proof.
  rewrite limitExceeded_eq. unfold checkCoordinates. intros H Heq.
  repeat case_match; simplify_eq.
Qed.

(** While fewer than 10 calls hold a slot, a call that passes the range
    tests on a live context is given one. *)
Lemma arrive_free env coin w latitude longitude :
  pool_inv w -> (holders (calls w) < 10)%nat ->
  checkCoordinates env latitude longitude = None ->
  arrive env coin (pool w) ctx_live latitude longitude
  = Some (mkChan 10 (S (holders (calls w))), Holding latitude longitude).
Proof.
  intros [Hcap Hlen Hle] Hfree Hck. unfold maxConcurrent in *.
  unfold arrive. rewrite Hck.
  rewrite select_live_free by lia.
  unfold Chan.send. rewrite decide_True by lia. cbn.
  by rewrite Hcap, Hlen.
Qed.

(** X9. No call is turned away without cause. In every world the
    goroutines can reach, an arriving call ends with the limit error only
    if 10 other calls hold a slot at that moment (and its context is live
    and its coordinates passed); and while fewer than 10 hold a slot, a
    call with coordinates that pass and a live context is given one. *)
Theorem rejected_only_when_full env c opts args w coin ctx latitude longitude :
  rtc (step env c) (launch env opts args) w ->
  (forall sem' r reqs,
     arrive env coin (pool w) ctx latitude longitude
     = Some (sem', Finished r reqs) ->
     err r = Some limitExceeded ->
     holders (calls w) = 10%nat /\ ctx = ctx_live
     /\ checkCoordinates env latitude longitude = None)
  /\ ((holders (calls w) < 10)%nat ->
      ctx = ctx_live ->
      checkCoordinates env latitude longitude = None ->
      arrive env coin (pool w) ctx latitude longitude
      = Some (mkChan 10 (S (holders (calls w))), Holding latitude longitude)).
Proof.
  intros Hrun.
  destruct (reachable_pool_inv _ _ _ _ _ Hrun) as [Hinv _].
  split; [|intros Hfree -> Hck; by apply arrive_free].
  destruct Hinv as [Hcap Hlen Hle]. unfold maxConcurrent in *.
  intros sem' r reqs Harr Hr. unfold arrive in Harr.
  destruct (checkCoordinates env latitude longitude) as [e|] eqn:Hck.
  { simplify_eq. cbn in Hr. simplify_eq.
    by destruct (checkCoordinates_not_limit _ _ _ _ Hck). }
  destruct (select coin (pool w) ctx) eqn:Hsel.
  - destruct (Chan.send (pool w)); discriminate.
  - simplify_eq. cbn in Hr.
    destruct (select_done _ _ _ Hsel) as [[Hc _]|[Hc _]]; rewrite Hc in Hr;
      rewrite limitExceeded_eq in Hr; discriminate.
  - apply select_default in Hsel as [-> Hfull].
    split; [lia|done].
Qed.

Lemma rejected_only_when_full_witness :
  let env := Mock.env (Sample.response zero zero zero) (Mock.reply 200 "{}") in
  arrive env true
    (pool (launch env [] [(Sample.berlin_lat, Sample.berlin_lon)]))
    ctx_live Sample.berlin_lat Sample.berlin_lon
  = Some (mkChan 10 1, Holding Sample.berlin_lat Sample.berlin_lon).
Proof.
  intros env.
  apply (proj2 (rejected_only_when_full env (NewClient env []) [] 
                  [(Sample.berlin_lat, Sample.berlin_lon)]
                  (launch env [] [(Sample.berlin_lat, Sample.berlin_lon)])
                  true ctx_live Sample.berlin_lat Sample.berlin_lon
                  (rtc_refl _ _)));
    [cbn; lia | reflexivity | vm_compute; reflexivity].
Defined.

Lemma with_semaphore_id c : with_semaphore (semaphore c) c = c.
Proof. by destruct c. Qed.

Lemma free_slot_not_limit env coin c ctx latitude longitude :
  (chan_len (semaphore c) < chan_cap (semaphore c))%nat ->
  exists o,
    GetCurrentWeather env coin c ctx latitude longitude = Some o
    /\ sem_after o = semaphore c
    /\ err (returned o) <> Some limitExceeded.
Proof.
  intros Hfree.
  destruct (GetCurrentWeather_exits env coin c ctx latitude longitude)
    as (o & Hcall & Hsem & Hexit).
  exists o. split; [done|]. split; [done|].
  destruct Hexit as [(e & Hck & Hr & _)|[(_ & Hsel & Hr & _)|[(_ & Hsel & _)
    |(_ & _ & Hx)]]].
  - rewrite Hr. cbn. intros ?; simplify_eq.
    by destruct (checkCoordinates_not_limit _ _ _ _ Hck).
  - rewrite Hr. cbn. rewrite limitExceeded_eq.
    destruct (select_done _ _ _ Hsel) as [[-> _]|[-> _]]; discriminate.
  - apply select_default in Hsel as [_ Hfull]. lia.
  - rewrite limitExceeded_eq. destruct Hx; cbn; discriminate.
Qed.

(** X10. A client used by one goroutine at a time never runs out of
    slots: however many calls are made one after the other, and however
    each of them ends, every call returns, leaves the semaphore as the
    first one found it, and none ends with the limit error. *)
Theorem sequential_use_never_rejected env c (l : list invocation) :
  (chan_len (semaphore c) < chan_cap (semaphore c))%nat ->
  exists os,
    run_sequence env c l = Some (os, c)
    /\ length os = length l
    /\ Forall (fun o => sem_after o = semaphore c
                        /\ err (returned o) <> Some limitExceeded) os.
Proof.
  intros Hfree. induction l as [|i l (os & Hrun & Hlen & Hall)].
  - exists []. by repeat split.
  - destruct (free_slot_not_limit env (inv_coin i) c (inv_ctx i)
                (inv_latitude i) (inv_longitude i) Hfree)
      as (o & Hcall & Hsem & Hne).
    exists (o :: os). cbn [run_sequence]. rewrite Hcall. cbn.
    rewrite Hsem, with_semaphore_id, Hrun. cbn.
    split; [done|]. split; [by rewrite Hlen|]. by constructor.
Qed.

Lemma sequential_use_never_rejected_witness :
  let env := Mock.env (Sample.response zero zero zero) (Mock.reply 500 "down") in
  let c := NewClient env [] in
  let l := replicate 12 (mkInvocation true ctx_live Sample.berlin_lat Sample.berlin_lon) in
  exists os, run_sequence env c l = Some (os, c) /\ length os = 12%nat.
Proof.
  intros env c l.
  destruct (sequential_use_never_rejected env c l) as (os & Hrun & Hlen & _).
  - cbn. unfold maxConcurrent. lia.
  - exists os. split; [exact Hrun|]. rewrite Hlen. reflexivity.
Defined.

(** ** Options *)



(** ** The request URL, in general *)

Lemma Encode_parameters env latitude longitude :
  URL.Encode (setParameters env latitude longitude [])
  = "current_weather=true&latitude=" +:+ URL.QueryEscape (FormatFloat env latitude)
    +:+ "&longitude=" +:+ URL.QueryEscape (FormatFloat env longitude)
    +:+ "&precipitation_unit=mm&temperature_unit=celsius&windspeed_unit=ms".
Proof.
  unfold URL.Encode, setParameters.
  generalize (FormatFloat env latitude), (FormatFloat env longitude).
  intros a b. vm_compute. reflexivity.
Qed.

(** X12. For a base URL without query, the request URL is, for all
    coordinates, what [url.Parse] made of [baseURL + "/forecast"],
    followed by [?] and the six parameters in the byte order of their
    keys, whatever the order of the [q.Set] calls: [current_weather=true],
    [latitude] and [longitude] with the escaped output of
    [strconv.FormatFloat], [precipitation_unit=mm],
    [temperature_unit=celsius], [windspeed_unit=ms]; then the fragment, if
    the base URL has one. *)
Theorem buildRequestURL_closed_form env c latitude longitude u :
  url_Parse env (baseURL c +:+ "/forecast") = Ok u ->
  url_ParseQuery env (URL.RawQuery u) = [] ->
  buildRequestURL env c latitude longitude
  = Ok (URL.Head u +:+ "?current_weather=true&latitude="
        +:+ URL.QueryEscape (FormatFloat env latitude)
        +:+ "&longitude=" +:+ URL.QueryEscape (FormatFloat env longitude)
        +:+ "&precipitation_unit=mm&temperature_unit=celsius&windspeed_unit=ms"
        +:+ (if bool_decide (URL.Fragment u = "") then ""
             else "#" +:+ URL.Fragment u)).
Proof.
  intros Hparse Hq. unfold buildRequestURL. rewrite Hparse, Hq.
  rewrite Encode_parameters. unfold URL.String_, URL.set_RawQuery.
  cbn [URL.Head URL.ForceQuery URL.RawQuery URL.Fragment].
  rewrite bool_decide_eq_false_2 by discriminate.
  rewrite orb_true_r. f_equal. f_equal.
  generalize (URL.QueryEscape (FormatFloat env latitude)),
             (URL.QueryEscape (FormatFloat env longitude)).
  intros a b. rewrite !app_assoc_string. reflexivity.
Qed.

Lemma buildRequestURL_closed_form_witness :
  let env := Mock.env (Sample.response zero zero zero) (Mock.reply 200 "{}") in
  buildRequestURL env (NewClient env [WithBaseURL "http://127.0.0.1:8080"])
    (of_int 90) NaN
  = Ok "http://127.0.0.1:8080/forecast?current_weather=true&latitude=90&longitude=NaN&precipitation_unit=mm&temperature_unit=celsius&windspeed_unit=ms".
Proof.
  intros env.
  apply (buildRequestURL_closed_form env
           (NewClient env [WithBaseURL "http://127.0.0.1:8080"]) (of_int 90) NaN
           (URL.mkURL "http://127.0.0.1:8080/forecast" false "" "")
           eq_refl eq_refl).
Defined.




(** ** Nulls, zeros and the time *)

(** X14. The snapshot cannot tell a null from a zero: replacing every
    null of the wire block by [0.0] (by [0] for the weather code and the
    day flag) and a null time by [0001-01-01T00:00], the one time string
    that stands for the zero time, gives the same snapshot. *)
Theorem null_is_zero (latitude longitude : float64)
  (cur : wire.currentWeatherResponse) :
  Time.Parse "0001-01-01T00:00" = Some Time.zero
  /\ convertToCurrentWeather (wire.mkResponse latitude longitude (zeroFill cur))
     = convertToCurrentWeather (wire.mkResponse latitude longitude cur).
Proof.
  split; [vm_compute; reflexivity|].
  unfold convertToCurrentWeather, zeroFill.
  cbn [wire.CurrentWeather wire.Latitude wire.Longitude wire.Time
       wire.Temperature wire.Windspeed wire.Winddirection wire.Weathercode
       wire.IsDay wire.RelativeHumidity wire.ApparentTemperature
       wire.Precipitation wire.Rain wire.Showers wire.Snowfall
       wire.CloudCover wire.PressureMSL wire.SurfacePressure wire.WindGusts].
  f_equal;
    try match goal with
        | |- context [default _ ?p] => destruct p; reflexivity
        end.
Qed.

Lemma digit_bounds c : Time.isDigit c = true -> 0 <= Time.digit c <= 9.
Proof.
  unfold Time.isDigit, Time.digit. rewrite andb_true_iff, !Z.leb_le. lia.
Qed.

Lemma getyear_inv s y v :
  Time.getyear s = Some (y, v) ->
  0 <= y <= 9999 /\ String.length s = (4 + String.length v)%nat.
Proof.
  unfold Time.getyear. intros H.
  destruct s as [|a [|b [|c [|d rest]]]]; try discriminate.
  destruct (Time.isDigit a) eqn:Ha, (Time.isDigit b) eqn:Hb,
           (Time.isDigit c) eqn:Hc, (Time.isDigit d) eqn:Hd;
    cbn in H; try discriminate. simplify_eq.
  apply digit_bounds in Ha, Hb, Hc, Hd. split; [lia|reflexivity].
Qed.

Lemma getnum_inv s fixed n v :
  Time.getnum s fixed = Some (n, v) ->
  0 <= n <= 99
  /\ (String.length s = (2 + String.length v)%nat
      \/ (fixed = false /\ String.length s = (1 + String.length v)%nat)).
Proof.
  unfold Time.getnum. intros H.
  destruct s as [|c0 s1]; [discriminate|].
  destruct (Time.isDigit c0) eqn:H0; [|discriminate].
  apply digit_bounds in H0.
  destruct s1 as [|c1 s2].
  - destruct fixed; [discriminate|]. simplify_eq. split; [lia|]. right. done.
  - destruct (Time.isDigit c1) eqn:H1.
    + apply digit_bounds in H1. simplify_eq. split; [lia|]. left. done.
    + destruct fixed; [discriminate|]. simplify_eq. split; [lia|]. right. done.
Qed.

Lemma skip_inv c s v :
  Time.skip c s = Some v -> String.length s = (1 + String.length v)%nat.
Proof.
  unfold Time.skip. destruct s as [|c' rest]; [discriminate|].
  case_decide; [|discriminate]. by intros ?; simplify_eq.
Qed.

(** What [time.Parse] accepts under the layout of the SDK. *)
Lemma Parse_inv s t :
  Time.Parse s = Some t ->
  valid_civil t /\ (String.length s = 15%nat \/ String.length s = 16%nat).
Proof.
  unfold Time.Parse. intros H.
  repeat (simplify_option_eq;
          try match goal with p : (_ * _)%type |- _ => destruct p end).
  repeat match goal with
         | E : Time.getyear _ = Some _ |- _ => apply getyear_inv in E as [? ?]
         | E : Time.skip _ _ = Some _ |- _ => apply skip_inv in E
         | E : Time.getnum _ true = Some _ |- _ =>
             apply getnum_inv in E as [_ [?|[? _]]]; [|discriminate]
         | E : Time.getnum _ false = Some _ |- _ =>
             apply getnum_inv in E as [_ ?]
         end.
  split; [unfold valid_civil; cbn; lia|]. cbn in *. lia.
Qed.

(** X15. The time of a snapshot is always a date and time of day that
    exists: the zero time, or what a time string of the shape
    [YYYY-MM-DDTHH:MM] (one-digit hours allowed) named, with month 1-12,
    a day of that month in that year, hour 0-23 and minute 0-59. Any other
    string leaves the zero time: in particular every string that is not 15
    or 16 bytes long, such as a time with seconds or with a zone. *)
Theorem snapshot_time_valid (apiResp : wire.weatherResponse) :
  valid_civil (Time (convertToCurrentWeather apiResp))
  /\ (forall s,
        wire.Time (wire.CurrentWeather apiResp) = Some s ->
        String.length s <> 15%nat -> String.length s <> 16%nat ->
        Time (convertToCurrentWeather apiResp) = Time.zero)
  /\ (forall s,
        wire.Time (wire.CurrentWeather apiResp) = Some s ->
        Time (convertToCurrentWeather apiResp) <> Time.zero ->
        Time.Parse s = Some (Time (convertToCurrentWeather apiResp))).
Proof.
  assert (Hzero : valid_civil Time.zero) by (unfold valid_civil; cbn; lia).
  unfold convertToCurrentWeather; cbn [Time].
  destruct (wire.Time (wire.CurrentWeather apiResp)) as [s|];
    [|by repeat split].
  destruct (Time.Parse s) as [t|] eqn:Hp.
  - apply Parse_inv in Hp as Hv. destruct Hv as [Hv Hlen].
    split; [exact Hv|]. split.
    + intros s' ? ? ?. simplify_eq. lia.
    + intros s' ? _. by simplify_eq.
  - split; [exact Hzero|]. split; [done|]. intros s' _ Hne. done.
Qed.

Lemma snapshot_time_valid_witness :
  Time (convertToCurrentWeather
          (Sample.sparse zero zero "2025-12-29T10:00:00Z" zero)) = Time.zero.
Proof.
  apply (proj1 (proj2 (snapshot_time_valid
                         (Sample.sparse zero zero "2025-12-29T10:00:00Z" zero)))
           "2025-12-29T10:00:00Z" eq_refl); cbn; lia.
Defined.

(** ** The cause chain *)






(** ** Ten goroutines *)




(** ** When the runtime's choice matters *)

(** X18. The choice the runtime makes in the [select] matters only in
    the race of X8: on a live context, and also when no slot is free, the
    outcome of a call does not depend on it. *)
Theorem select_choice_irrelevant env c ctx latitude longitude :
  ctx = ctx_live \/ (chan_cap (semaphore c) <= chan_len (semaphore c))%nat ->
  GetCurrentWeather env true c ctx latitude longitude
  = GetCurrentWeather env false c ctx latitude longitude.
Proof.
  intros Hcase. unfold GetCurrentWeather.
  destruct (checkCoordinates env latitude longitude); [done|].
  replace (select true (semaphore c) ctx) with (select false (semaphore c) ctx);
    [done|].
  unfold select, Chan.send.
  destruct Hcase as [->|Hfull]; [by destruct (decide _)|].
  by rewrite decide_False by lia.
Qed.

Lemma select_choice_irrelevant_witness :
  let env := Mock.env (Sample.response zero zero zero) (Mock.reply 200 "{}") in
  GetCurrentWeather env true (Mock.busy (NewClient env [])) ctx_expired
    Sample.berlin_lat Sample.berlin_lon
  = GetCurrentWeather env false (Mock.busy (NewClient env [])) ctx_expired
      Sample.berlin_lat Sample.berlin_lon.
Proof.
  intros env.
  apply (select_choice_irrelevant env (Mock.busy (NewClient env [])) ctx_expired).
  right. cbn. lia.
Defined.
